(** * UK ONS MCP server: a shallow embedding of the API client, the dataset
      service and the tool adapter, with the properties of their contract.

    Sources embedded here:
    - [ons-client.ts]       (class [ONSApiClient])
    - [dataset-service.ts]  (class [ONSDatasetService])
    - [index.ts]            (the [CallToolRequestSchema] handler)

    Conventions of the embedding.
    - A JavaScript string is a [string].  The engine's [toLowerCase], a
      Unicode case mapping, is left open: it is a member of the class
      [Js.Host], and every property is proved for every host.  Examples run
      on the Basic Latin host, which agrees with every engine on Basic Latin
      strings.
    - A JavaScript [number] is a [Z]: only integral values are covered.
    - An object used as a record ([Record<string, T>]) is an association list
      in the enumeration order of [Object.entries], with unique keys.
    - An asynchronous method is a function from the list of HTTP requests
      issued so far to its outcome and the extended list; the upstream API is
      a function of the request. *)

From Stdlib Require Import ZArith List Bool Lia Permutation Sorted.
From Stdlib Require Import Strings.String Strings.Ascii.
From Stdlib Require Import Numbers.DecimalString.
Import ListNotations.

Local Open Scope list_scope.
Local Open Scope string_scope.
Local Open Scope Z_scope.

Set Implicit Arguments.

(* ================================================================== *)
(** ** JavaScript built-ins used by the sources *)

Module Js.

(** What the sources take from the engine they run on:
    [String.prototype.toLowerCase], of which nothing is assumed but that it
    maps the empty string to itself. *)
Class Host : Type := mkHost {
  toLowerCase : string -> string;
  toLowerCase_empty : toLowerCase EmptyString = EmptyString
}.

(** [String.prototype.includes]: [t] occurs in [s] at some position. *)
Fixpoint includes (s t : string) : bool :=
  prefix t s ||
  match s with
  | EmptyString => false
  | String _ s' => includes s' t
  end.

(** Template-literal conversion of an integral number. *)
Definition Number_toString (n : Z) : string :=
  NilEmpty.string_of_int (Z.to_int n).

(** [Array.prototype.join]. *)
Definition join (sep : string) (l : list string) : string :=
  String.concat sep l.

(** [Array.prototype.slice(0, end)] for an integral [end]: a negative
    [end] counts from the end of the array. *)
Definition slice0 {A : Type} (l : list A) (end_ : Z) : list A :=
  let len := Z.of_nat (List.length l) in
  let final := if end_ <? 0 then Z.max (len + end_) 0 else Z.min end_ len in
  firstn (Z.to_nat final) l.

(** [Array.prototype.some]. *)
Definition some {A : Type} (f : A -> bool) (l : list A) : bool :=
  existsb f l.

(** Truthiness of a string value: the empty string is falsy. *)
Definition truthy (s : string) : bool :=
  negb (String.eqb s EmptyString).

(** [a || b] on [string | undefined] with a string fallback. *)
Definition or_else (a : option string) (b : string) : string :=
  match a with
  | Some v => if truthy v then v else b
  | None => b
  end.

(** An object used as a map, in [Object.entries] order. *)
Definition Record (V : Type) : Type := list (string * V).

Fixpoint get {V : Type} (o : Record V) (k : string) : option V :=
  match o with
  | [] => None
  | (k', v) :: o' => if String.eqb k' k then Some v else get o' k
  end.

(** [o[k] = v]: overwrite in place, or append a new property. *)
Fixpoint set {V : Type} (o : Record V) (k : string) (v : V) : Record V :=
  match o with
  | [] => [(k, v)]
  | (k', v') :: o' =>
      if String.eqb k' k then (k', v) :: o' else (k', v') :: set o' k v
  end.

Definition keys {V : Type} (o : Record V) : list string := map fst o.

Definition entries {V : Type} (o : Record V) : list (string * V) := o.

(** [Array.prototype.sort] with a comparison function: the sort is stable,
    so for a consistent comparison function its result is the one of this
    insertion sort ([a] stays before [b] unless [compareFn a b > 0]). *)
Fixpoint sort_insert {A : Type} (compareFn : A -> A -> Z) (x : A) (l : list A) : list A :=
  match l with
  | [] => [x]
  | y :: l' =>
      if compareFn x y <=? 0 then x :: y :: l' else y :: sort_insert compareFn x l'
  end.

Fixpoint sort {A : Type} (compareFn : A -> A -> Z) (l : list A) : list A :=
  match l with
  | [] => []
  | x :: l' => sort_insert compareFn x (sort compareFn l')
  end.

(** Values of type [any]. *)
#[local] Unset Elimination Schemes.
Inductive Json : Type :=
| JNull
| JBool (b : bool)
| JNum (n : Z)
| JStr (s : string)
| JArr (l : list Json)
| JObj (fields : list (string * Json)).
#[local] Set Elimination Schemes.

(** [Error] objects; [message] is their only field the sources read. *)
Inductive Error : Type :=
| mkError (message : string).

Definition message (e : Error) : string :=
  match e with mkError m => m end.

(** Truthiness of a value of type [any]. *)
Definition truthy_json (v : Json) : bool :=
  match v with
  | JNull => false
  | JBool b => b
  | JNum n => negb (n =? 0)
  | JStr s => truthy s
  | JArr _ => true
  | JObj _ => true
  end.

(** [v.key] on a value that is not [null], for a [key] that is no built-in
    property of strings and arrays: objects give their own property, other
    values give [undefined]. *)
Definition prop (v : Json) (key : string) : option Json :=
  match v with
  | JObj fields => get fields key
  | _ => None
  end.

(** [v?.key]: [undefined] when [v] is [undefined] or [null]. *)
Definition opt_prop (v : option Json) (key : string) : option Json :=
  match v with
  | None => None
  | Some JNull => None
  | Some v' => prop v' key
  end.

End Js.

(* ================================================================== *)
(** ** Data model ([ons-client.ts], lines 3-58) *)

Record Href := { href : string }.

Record TitledLink := { tl_href : string; tl_title : string }.

Record Contact := { email : string; contact_name : string; telephone : string }.

Module Dimension.
Record t := mk {
  id : string;
  name : string;
  label : string;
  links_options : Href;
  links_self : Href
}.
End Dimension.

Module ONSDataset.
Record t := mk {
  id : string;
  title : string;
  description : string;
  links_self : Href;
  links_latest_version : Href;
  links_editions : Href;
  state : string;
  type : string;
  uri : string;
  qmi : option TitledLink;
  methodology : option TitledLink;
  contacts : option (list Contact);
  dimensions : option (list Dimension.t)
}.
End ONSDataset.

Module ONSDatasetList.
Record t := mk {
  count : Z;
  items : list ONSDataset.t;
  limit : Z;
  offset : Z;
  total_count : Z
}.
End ONSDatasetList.

Module ONSObservation.
Record t := mk {
  dimensions : Js.Record string;
  observation : string;
  metadata : option (Js.Record Js.Json)
}.
End ONSObservation.

Module ONSObservationResponse.
Record t := mk {
  observations : list ONSObservation.t;
  dimensions : Js.Record Js.Json;
  links : Js.Record Js.Json;
  total_observations : Z
}.
End ONSObservationResponse.

(** Payload of the dimension-options endpoint, typed [any] in the source;
    only its [items] property is read. *)
Module DimensionOptions.
Record t := mk { items : option (list Js.Json) }.
End DimensionOptions.

(* ================================================================== *)
(** ** The HTTP client (axios) *)

Module Axios.

Record Request := mkRequest {
  url : string;
  params : list (string * Z)
}.

(** [error.response]: the status and [data?.message] when it is a string. *)
Record ErrorResponse := mkErrorResponse {
  status : Z;
  data_message : option string
}.

(** The error axios rejects with: [response] is absent when no response
    was received. *)
Record Error := mkAxiosError {
  response : option ErrorResponse;
  message : string
}.

Inductive Outcome (T : Type) : Type :=
| Resolved (data : T)
| Rejected (error : Error).

Arguments Resolved {T} data.
Arguments Rejected {T} error.

(** The response types the client methods declare. *)
Inductive Shape : Type :=
| SDatasetList
| SDataset
| SObservations
| SOptions
| SAny.

Definition payload (s : Shape) : Type :=
  match s with
  | SDatasetList => ONSDatasetList.t
  | SDataset => ONSDataset.t
  | SObservations => ONSObservationResponse.t
  | SOptions => DimensionOptions.t
  | SAny => Js.Json
  end.

(** The upstream API as the client sees it: what a GET request settles to,
    read at the type its caller declares. *)
Definition Instance : Type := forall s : Shape, Request -> Outcome (payload s).

End Axios.

(* ================================================================== *)
(** ** Asynchronous computations: outcome and request log *)

Definition Async (E A : Type) : Type :=
  list Axios.Request -> (E + A) * list Axios.Request.

Definition resolve {E A : Type} (a : A) : Async E A :=
  fun log => (inr a, log).

Definition throw {E A : Type} (e : E) : Async E A :=
  fun log => (inl e, log).

Definition await {E A B : Type} (c : Async E A) (k : A -> Async E B) : Async E B :=
  fun log =>
    match c log with
    | (inr a, log') => k a log'
    | (inl e, log') => (inl e, log')
    end.

Definition try_catch {E F A : Type} (c : Async E A) (h : E -> Async F A) : Async F A :=
  fun log =>
    match c log with
    | (inr a, log') => (inr a, log')
    | (inl e, log') => h e log'
    end.

Notation "x <- c ;; k" := (await c (fun x => k))
  (at level 61, c at next level, right associativity).

(** [Promise.all] over computations started in list order: every one runs
    (its requests are issued), and the result is the list of their values, or
    a failure when one of them failed (here the first in list order). *)
Fixpoint Promise_all {E A : Type} (cs : list (Async E A)) : Async E (list A) :=
  match cs with
  | [] => resolve []
  | c :: cs' =>
      fun log =>
        match c log with
        | (inr a, log') =>
            match Promise_all cs' log' with
            | (inr r, log'') => (inr (a :: r), log'')
            | (inl e, log'') => (inl e, log'')
            end
        | (inl e, log') => (inl e, snd (Promise_all cs' log'))
        end
  end.

(** Outcome and requests of a computation started with an empty log. *)
Definition outcome {E A : Type} (c : Async E A) : E + A := fst (c []).
Definition requests {E A : Type} (c : Async E A) : list Axios.Request := snd (c []).

(* ================================================================== *)
(** ** [ONSApiClient] ([ons-client.ts], lines 60-221) *)

Module ONSApiClient.

(** The response interceptor's rejection handler (lines 77-96). *)
Definition onRejected (error : Axios.Error) : Js.Error :=
  match Axios.response error with
  | Some response =>
      let status := Axios.status response in
      let message := Js.or_else (Axios.data_message response) (Axios.message error) in
      if status =? 404 then
        Js.mkError ("ONS API: Resource not found - " ++ message)
      else if status =? 400 then
        Js.mkError ("ONS API: Bad request - " ++ message)
      else if status =? 429 then
        Js.mkError ("ONS API: Rate limit exceeded - " ++ message)
      else if status =? 500 then
        Js.mkError ("ONS API: Server error - " ++ message)
      else
        Js.mkError ("ONS API: HTTP " ++ Js.Number_toString status ++ " - " ++ message)
  | None =>
      Js.mkError ("ONS API: Network error - " ++ Axios.message error)
  end.

(** [this.client.get(url, { params })] with the interceptors installed. *)
Definition client_get (client : Axios.Instance) (s : Axios.Shape)
    (url : string) (params : list (string * Z)) : Async Js.Error (Axios.payload s) :=
  fun log =>
    let request := Axios.mkRequest url params in
    (match client s request with
     | Axios.Resolved data => inr data
     | Axios.Rejected error => inl (onRejected error)
     end, (log ++ [request])%list).

Definition default {A : Type} (arg : option A) (d : A) : A :=
  match arg with
  | Some a => a
  | None => d
  end.

Definition listDatasets (client : Axios.Instance) (limit offset : option Z)
    : Async Js.Error ONSDatasetList.t :=
  let limit := default limit 20 in
  let offset := default offset 0 in
  client_get client Axios.SDatasetList "/datasets"
    [("limit", limit); ("offset", offset)].

Definition getDataset (client : Axios.Instance) (datasetId : string)
    : Async Js.Error ONSDataset.t :=
  client_get client Axios.SDataset ("/datasets/" ++ datasetId) [].

Definition getLatestVersion (client : Axios.Instance) (datasetId : string)
    (edition : option string) : Async Js.Error Js.Json :=
  let edition := default edition "time-series" in
  client_get client Axios.SAny
    ("/datasets/" ++ datasetId ++ "/editions/" ++ edition ++ "/versions/latest") [].

(** The request path of [getObservations] (lines 136-140). *)
Definition observationsUrl (datasetId edition version : string)
    (dimensions : Js.Record string) : string :=
  let dimensionParams :=
    Js.join "&" (map (fun '(key, value) => key ++ "=" ++ value) (Js.entries dimensions)) in
  "/datasets/" ++ datasetId ++ "/editions/" ++ edition ++ "/versions/" ++ version
    ++ "/observations?" ++ dimensionParams.

Definition getObservations (client : Axios.Instance) (datasetId : string)
    (edition version : option string) (dimensions : Js.Record string)
    : Async Js.Error ONSObservationResponse.t :=
  let edition := default edition "time-series" in
  let version := default version "latest" in
  let url := observationsUrl datasetId edition version dimensions in
  client_get client Axios.SObservations url [].

(** The filter predicate of [searchDatasets] (lines 161-165). *)
Definition matches {host : Js.Host} (searchTerm : string) (dataset : ONSDataset.t)
    : bool :=
  Js.includes (Js.toLowerCase (ONSDataset.title dataset)) searchTerm
  || Js.includes (Js.toLowerCase (ONSDataset.description dataset)) searchTerm
  || Js.includes (Js.toLowerCase (ONSDataset.id dataset)) searchTerm.

Definition searchDatasets {host : Js.Host} (client : Axios.Instance) (query : string)
    (limit : option Z) : Async Js.Error ONSDatasetList.t :=
  let limit := default limit 10 in
  allDatasets <- listDatasets client (Some 100) (Some 0) ;;
  let searchTerm := Js.toLowerCase query in
  let filteredItems :=
    Js.slice0 (filter (matches searchTerm) (ONSDatasetList.items allDatasets)) limit in
  resolve (ONSDatasetList.mk
             (Z.of_nat (List.length filteredItems))
             filteredItems
             limit
             0
             (Z.of_nat (List.length filteredItems))).

Definition getDimensionOptions (client : Axios.Instance)
    (datasetId dimensionId : string) : Async Js.Error DimensionOptions.t :=
  client_get client Axios.SOptions
    ("/datasets/" ++ datasetId ++ "/dimensions/" ++ dimensionId ++ "/options") [].

(** [getDownloadUrl] (lines 148-151).  Reading a property of [null] throws
    the engine's [TypeError]; the value returned is typed [string] in the
    source but is whatever truthy value sits at [downloads.csv.href]. *)
Definition getDownloadUrl (client : Axios.Instance) (datasetId : string)
    (edition : option string) : Async Js.Error Js.Json :=
  let edition := default edition "time-series" in
  latestVersion <- getLatestVersion client datasetId (Some edition) ;;
  match latestVersion with
  | Js.JNull =>
      throw (Js.mkError "Cannot read properties of null (reading 'downloads')")
  | _ =>
      let href :=
        Js.opt_prop (Js.opt_prop (Js.prop latestVersion "downloads") "csv") "href" in
      resolve (match href with
               | Some v => if Js.truthy_json v then v else Js.JStr EmptyString
               | None => Js.JStr EmptyString
               end)
  end.

Definition getPopularDatasets : list string :=
  ["cpih01";
   "regional-gdp-by-year";
   "wellbeing-local-authority";
   "uk-spending-on-cards";
   "weekly-deaths-region";
   "trade";
   "ageing-population-estimates";
   "wellbeing-quarterly";
   "traffic-camera-activity";
   "tax-benefits-statistics"].

Definition getDatasetDimensions (client : Axios.Instance) (datasetId : string)
    : Async Js.Error (list Dimension.t) :=
  dataset <- getDataset client datasetId ;;
  resolve (default (ONSDataset.dimensions dataset) []).

Definition healthCheck (client : Axios.Instance) : Async Js.Error bool :=
  try_catch
    (_ <- client_get client Axios.SAny "/datasets?limit=1" [] ;;
     resolve true)
    (fun _ => resolve false).

End ONSApiClient.

(* ================================================================== *)
(** ** [ONSDatasetService] ([dataset-service.ts]) *)

Module ONSDatasetService.

Record DatasetListOptions := mkDatasetListOptions {
  limit : Z;
  offset : Z
}.

(** The composite payloads the service returns (typed [any] in the source). *)
Record FiltersApplied := mkFiltersApplied {
  geography : option string;
  time_period : option string
}.

Record LatestData := mkLatestData {
  ld_dataset_id : string;
  ld_dataset_title : string;
  ld_dataset_description : string;
  filters_applied : FiltersApplied;
  dimensions_used : Js.Record string;
  ld_total_observations : Z;
  ld_observations : list ONSObservation.t;
  metadata_dimensions : Js.Record Js.Json;
  metadata_links : Js.Record Js.Json
}.

Record DimensionDetail := mkDimensionDetail {
  id : string;
  name : string;
  label : string;
  options : list Js.Json;
  error : option string
}.

Record DatasetDimensions := mkDatasetDimensions {
  dd_dataset_id : string;
  dd_dataset_title : string;
  dimensions : list DimensionDetail
}.

Record TimeSeries := mkTimeSeries {
  ts_dataset_id : string;
  ts_geography : string;
  time_series : list ONSObservation.t;
  ts_total_observations : Z
}.

Definition listDatasets (apiClient : Axios.Instance) (options : DatasetListOptions)
    : Async Js.Error ONSDatasetList.t :=
  ONSApiClient.listDatasets apiClient (Some (limit options)) (Some (offset options)).

Definition getDataset (apiClient : Axios.Instance) (datasetId : string)
    : Async Js.Error ONSDataset.t :=
  ONSApiClient.getDataset apiClient datasetId.

Definition searchDatasets {host : Js.Host} (apiClient : Axios.Instance)
    (query : string) (limit : option Z) : Async Js.Error ONSDatasetList.t :=
  let limit := ONSApiClient.default limit 10 in
  ONSApiClient.searchDatasets apiClient query (Some limit).

Definition getObservations (apiClient : Axios.Instance) (datasetId : string)
    (edition version : option string) (dimensions : Js.Record string)
    : Async Js.Error ONSObservationResponse.t :=
  let edition := ONSApiClient.default edition "time-series" in
  let version := ONSApiClient.default version "latest" in
  ONSApiClient.getObservations apiClient datasetId (Some edition) (Some version) dimensions.

(** [dataset.dimensions?.some(d => d.id === key)]; [undefined] is falsy. *)
Definition declares (dataset : ONSDataset.t) (key : string) : bool :=
  match ONSDataset.dimensions dataset with
  | Some ds => Js.some (fun d => String.eqb (Dimension.id d) key) ds
  | None => false
  end.

(** The dimension filter of [getLatestData] (lines 62-85). *)
Definition getLatestData_dimensions (dataset : ONSDataset.t)
    (geography timePeriod : option string) : Js.Record string :=
  let dimensions : Js.Record string := [] in
  let dimensions :=
    match geography with
    | Some g => if Js.truthy g then Js.set dimensions "geography" g else dimensions
    | None => dimensions
    end in
  let dimensions :=
    match timePeriod with
    | Some t => if Js.truthy t then Js.set dimensions "time" t else dimensions
    | None => dimensions
    end in
  if (List.length (Js.keys dimensions) =? 0)%nat then
    let dimensions :=
      if declares dataset "time" then Js.set dimensions "time" "*" else dimensions in
    let dimensions :=
      if declares dataset "geography"
      then Js.set dimensions "geography" "K02000001" else dimensions in
    dimensions
  else dimensions.

Definition getLatestData (apiClient : Axios.Instance) (datasetId : string)
    (geography timePeriod : option string) : Async Js.Error LatestData :=
  try_catch
    (dataset <- getDataset apiClient datasetId ;;
     let dimensions := getLatestData_dimensions dataset geography timePeriod in
     observations <-
       getObservations apiClient datasetId (Some "time-series") (Some "latest") dimensions ;;
     resolve (mkLatestData
                datasetId
                (ONSDataset.title dataset)
                (ONSDataset.description dataset)
                (mkFiltersApplied geography timePeriod)
                dimensions
                (ONSObservationResponse.total_observations observations)
                (ONSObservationResponse.observations observations)
                (ONSObservationResponse.dimensions observations)
                (ONSObservationResponse.links observations)))
    (fun error =>
       let errorMessage := Js.message error in
       throw (Js.mkError
                ("Failed to get latest data for " ++ datasetId ++ ": " ++ errorMessage))).

(** The per-dimension task of [getDatasetDimensions] (lines 141-160). *)
Definition dimensionDetail (apiClient : Axios.Instance) (datasetId : string)
    (dim : Dimension.t) : Async Js.Error DimensionDetail :=
  try_catch
    (options <- ONSApiClient.getDimensionOptions apiClient datasetId (Dimension.id dim) ;;
     resolve (mkDimensionDetail
                (Dimension.id dim) (Dimension.name dim) (Dimension.label dim)
                (ONSApiClient.default (DimensionOptions.items options) [])
                None))
    (fun error =>
       let errorMessage := Js.message error in
       resolve (mkDimensionDetail
                  (Dimension.id dim) (Dimension.name dim) (Dimension.label dim)
                  []
                  (Some errorMessage))).

Definition getDatasetDimensions (apiClient : Axios.Instance) (datasetId : string)
    : Async Js.Error DatasetDimensions :=
  dataset <- getDataset apiClient datasetId ;;
  let dimensions := ONSApiClient.default (ONSDataset.dimensions dataset) [] in
  dimensionDetails <- Promise_all (map (dimensionDetail apiClient datasetId) dimensions) ;;
  resolve (mkDatasetDimensions datasetId (ONSDataset.title dataset) dimensionDetails).

(** [a.dimensions.time || ''] (lines 186-187). *)
Definition timeOf (a : ONSObservation.t) : string :=
  Js.or_else (Js.get (ONSObservation.dimensions a) "time") EmptyString.

Section TimeSeries.

(** [String.prototype.localeCompare] of the host: negative, zero or positive
    as the receiver sorts before, with or after the argument in the default
    locale's collation. *)
Variable localeCompare : string -> string -> Z.

Definition compareFn (a b : ONSObservation.t) : Z :=
  let timeA := timeOf a in
  let timeB := timeOf b in
  localeCompare timeA timeB.

Definition getTimeSeriesData (apiClient : Axios.Instance) (datasetId : string)
    (geography : option string) : Async Js.Error TimeSeries :=
  let geography := ONSApiClient.default geography "K02000001" in
  let dimensions := [("geography", geography); ("time", "*")] in
  observations <-
    getObservations apiClient datasetId (Some "time-series") (Some "latest") dimensions ;;
  let sortedObservations :=
    Js.sort compareFn (ONSObservationResponse.observations observations) in
  resolve (mkTimeSeries datasetId geography sortedObservations
             (ONSObservationResponse.total_observations observations)).

End TimeSeries.

(** The loop of [getPopularDatasets] (lines 120-128): a dataset that cannot
    be fetched is skipped (the warning goes to the console, which is not part
    of the result). *)
Fixpoint getPopularDatasets_loop (apiClient : Axios.Instance) (ids : list string)
    (datasets : list ONSDataset.t) : Async Js.Error (list ONSDataset.t) :=
  match ids with
  | [] => resolve datasets
  | id :: ids' =>
      datasets' <-
        try_catch
          (dataset <- getDataset apiClient id ;;
           resolve (datasets ++ [dataset])%list)
          (fun error => resolve datasets) ;;
      getPopularDatasets_loop apiClient ids' datasets'
  end.

Definition getPopularDatasets (apiClient : Axios.Instance)
    : Async Js.Error (list ONSDataset.t) :=
  let popularIds := ONSApiClient.getPopularDatasets in
  getPopularDatasets_loop apiClient (Js.slice0 popularIds 10) [].

Record RegionalData := mkRegionalData {
  rd_dataset_id : string;
  rd_time_period : option string;
  regional_data : list ONSObservation.t;
  rd_total_observations : Z
}.

Definition getRegionalData (apiClient : Axios.Instance) (datasetId : string)
    (timePeriod : option string) : Async Js.Error RegionalData :=
  let dimensions : Js.Record string := [("geography", "*")] in
  let dimensions :=
    match timePeriod with
    | Some t => if Js.truthy t then Js.set dimensions "time" t else dimensions
    | None => dimensions
    end in
  observations <-
    getObservations apiClient datasetId (Some "time-series") (Some "latest") dimensions ;;
  resolve (mkRegionalData datasetId timePeriod
             (ONSObservationResponse.observations observations)
             (ONSObservationResponse.total_observations observations)).

Record Health := mkHealth {
  status : string;
  api_accessible : bool
}.

Definition healthCheck (apiClient : Axios.Instance) : Async Js.Error Health :=
  apiAccessible <- ONSApiClient.healthCheck apiClient ;;
  resolve (mkHealth (if apiAccessible then "healthy" else "unhealthy") apiAccessible).

End ONSDatasetService.

(* ================================================================== *)
(** ** The tool adapter ([index.ts], lines 35-61 and 136-224) *)

Module ToolAdapter.

(** [ErrorCode] of the protocol SDK. *)
Inductive ErrorCode : Type :=
| ParseError
| InvalidRequest
| MethodNotFound
| InvalidParams
| InternalError.

(** An [invalid_type] issue of the validation library, the only kind the
    schemas of this file can raise. *)
Record ZodIssue := mkZodIssue {
  expected : string;
  received : string;
  path : list string;
  issue_message : string
}.

(** What the handler's code can throw. *)
Inductive Thrown : Type :=
| ThrownError (e : Js.Error)
| ZodError (issues : list ZodIssue)
| McpError (code : ErrorCode) (message : string).

Definition ParseResult (A : Type) : Type := (list ZodIssue + A)%type.

(** The library's name for the type of an input; [None] is [undefined]. *)
Definition parsedType (v : option Js.Json) : string :=
  match v with
  | None => "undefined"
  | Some Js.JNull => "null"
  | Some (Js.JBool _) => "boolean"
  | Some (Js.JNum _) => "number"
  | Some (Js.JStr _) => "string"
  | Some (Js.JArr _) => "array"
  | Some (Js.JObj _) => "object"
  end.

Definition invalid_type (expected : string) (v : option Js.Json) (path : list string)
    : ZodIssue :=
  mkZodIssue expected (parsedType v) path
    (match v with
     | None => "Required"
     | Some _ => "Expected " ++ expected ++ ", received " ++ parsedType v
     end).

(** [z.string()] *)
Definition z_string (path : list string) (v : option Js.Json) : ParseResult string :=
  match v with
  | Some (Js.JStr s) => inr s
  | _ => inl [invalid_type "string" v path]
  end.

(** [z.string().optional()] *)
Definition z_string_optional (path : list string) (v : option Js.Json)
    : ParseResult (option string) :=
  match v with
  | None => inr None
  | Some (Js.JStr s) => inr (Some s)
  | _ => inl [invalid_type "string" v path]
  end.

(** [z.string().optional().default(d)] *)
Definition z_string_default (d : string) (path : list string) (v : option Js.Json)
    : ParseResult string :=
  match v with
  | None => inr d
  | Some (Js.JStr s) => inr s
  | _ => inl [invalid_type "string" v path]
  end.

(** [z.number().optional().default(d)] *)
Definition z_number_default (d : Z) (path : list string) (v : option Js.Json)
    : ParseResult Z :=
  match v with
  | None => inr d
  | Some (Js.JNum n) => inr n
  | _ => inl [invalid_type "number" v path]
  end.

(** Two fields of one object: the issues of both are reported. *)
Definition both {A B : Type} (ra : ParseResult A) (rb : ParseResult B)
    : ParseResult (A * B) :=
  match ra, rb with
  | inr a, inr b => inr (a, b)
  | inl i, inr _ => inl i
  | inr _, inl j => inl j
  | inl i, inl j => inl (i ++ j)%list
  end.

(** [z.record(z.string())] *)
Fixpoint z_record_fields (path : list string) (fields : list (string * Js.Json))
    : ParseResult (Js.Record string) :=
  match fields with
  | [] => inr []
  | (k, v) :: fields' =>
      match both (z_string (path ++ [k])%list (Some v)) (z_record_fields path fields') with
      | inr (s, r) => inr ((k, s) :: r)
      | inl issues => inl issues
      end
  end.

Definition z_record_string (path : list string) (v : option Js.Json)
    : ParseResult (Js.Record string) :=
  match v with
  | Some (Js.JObj fields) => z_record_fields path fields
  | _ => inl [invalid_type "object" v path]
  end.

(** [z.object({...}).parse(args)]: [args] is an object or [undefined]. *)
Definition z_object {A : Type} (args : option (Js.Record Js.Json))
    (fields : Js.Record Js.Json -> ParseResult A) : ParseResult A :=
  match args with
  | Some o => fields o
  | None => inl [invalid_type "object" None []]
  end.

Definition ListDatasetsArgsSchema (args : option (Js.Record Js.Json))
    : ParseResult (Z * Z) :=
  z_object args (fun o =>
    both (z_number_default 20 ["limit"] (Js.get o "limit"))
         (z_number_default 0 ["offset"] (Js.get o "offset"))).

Definition GetDatasetArgsSchema (args : option (Js.Record Js.Json))
    : ParseResult string :=
  z_object args (fun o => z_string ["dataset_id"] (Js.get o "dataset_id")).

Definition SearchDatasetsArgsSchema (args : option (Js.Record Js.Json))
    : ParseResult (string * Z) :=
  z_object args (fun o =>
    both (z_string ["query"] (Js.get o "query"))
         (z_number_default 10 ["limit"] (Js.get o "limit"))).

Definition GetObservationArgsSchema (args : option (Js.Record Js.Json))
    : ParseResult (string * (string * (string * Js.Record string))) :=
  z_object args (fun o =>
    both (z_string ["dataset_id"] (Js.get o "dataset_id"))
      (both (z_string_default "time-series" ["edition"] (Js.get o "edition"))
        (both (z_string_default "latest" ["version"] (Js.get o "version"))
              (z_record_string ["dimensions"] (Js.get o "dimensions"))))).

Definition GetLatestDataArgsSchema (args : option (Js.Record Js.Json))
    : ParseResult (string * (option string * option string)) :=
  z_object args (fun o =>
    both (z_string ["dataset_id"] (Js.get o "dataset_id"))
      (both (z_string_optional ["geography"] (Js.get o "geography"))
            (z_string_optional ["time_period"] (Js.get o "time_period")))).

(** The object each tool serializes into its text content. *)
Inductive ToolOutput : Type :=
| ListDatasetsOutput (datasets : list ONSDataset.t) (total limit offset : Z)
| GetDatasetOutput (dataset : ONSDataset.t)
| SearchDatasetsOutput (query : string) (results : list ONSDataset.t) (total : Z)
| GetObservationOutput (observations : ONSObservationResponse.t)
| GetLatestDataOutput (data : ONSDatasetService.LatestData).

(** [Schema.parse(args)] *)
Definition parse {A : Type} (r : ParseResult A) : Async Thrown A :=
  match r with
  | inr a => resolve a
  | inl issues => throw (ZodError issues)
  end.

(** A service call inside the handler: its failures are [Error] objects. *)
Definition service {A : Type} (c : Async Js.Error A) : Async Thrown A :=
  try_catch c (fun e => throw (ThrownError e)).

Section Handler.

Context {host : Js.Host}.

(** The [message] of a [ZodError]: the library's rendering of its issues. *)
Variable ZodError_message : list ZodIssue -> string.

Variable apiClient : Axios.Instance.

(** The [switch] of the handler (lines 140-217). *)
Definition dispatch (name : string) (args : option (Js.Record Js.Json))
    : Async Thrown ToolOutput :=
  if String.eqb name "list_datasets" then
    r <- parse (ListDatasetsArgsSchema args) ;;
    let '(limit, offset) := r in
    datasets <- service (ONSDatasetService.listDatasets apiClient
                           (ONSDatasetService.mkDatasetListOptions limit offset)) ;;
    resolve (ListDatasetsOutput (ONSDatasetList.items datasets)
               (ONSDatasetList.total_count datasets) limit offset)
  else if String.eqb name "get_dataset" then
    dataset_id <- parse (GetDatasetArgsSchema args) ;;
    dataset <- service (ONSDatasetService.getDataset apiClient dataset_id) ;;
    resolve (GetDatasetOutput dataset)
  else if String.eqb name "search_datasets" then
    r <- parse (SearchDatasetsArgsSchema args) ;;
    let '(query, limit) := r in
    results <- service (ONSDatasetService.searchDatasets apiClient query (Some limit)) ;;
    resolve (SearchDatasetsOutput query (ONSDatasetList.items results)
               (ONSDatasetList.total_count results))
  else if String.eqb name "get_observation" then
    r <- parse (GetObservationArgsSchema args) ;;
    let '(dataset_id, (edition, (version, dimensions))) := r in
    observations <- service (ONSDatasetService.getObservations apiClient dataset_id
                               (Some edition) (Some version) dimensions) ;;
    resolve (GetObservationOutput observations)
  else if String.eqb name "get_latest_data" then
    r <- parse (GetLatestDataArgsSchema args) ;;
    let '(dataset_id, (geography, time_period)) := r in
    data <- service (ONSDatasetService.getLatestData apiClient dataset_id
                       geography time_period) ;;
    resolve (GetLatestDataOutput data)
  else
    throw (McpError MethodNotFound ("Unknown tool: " ++ name)).

(** The handler with its [catch] clause (lines 218-223). *)
Definition handler (name : string) (args : option (Js.Record Js.Json))
    : Async Thrown ToolOutput :=
  try_catch (dispatch name args)
    (fun error =>
       match error with
       | ZodError issues =>
           throw (McpError InvalidParams
                    ("Invalid parameters: " ++ ZodError_message issues))
       | _ => throw error
       end).

End Handler.

(** The tool list ([ListToolsRequestSchema] handler, lines 64-133). *)
Record ToolProperty := mkToolProperty {
  property_name : string;
  property_type : string;
  property_description : string;
  property_default : option Js.Json
}.

Record Tool := mkTool {
  tool_name : string;
  tool_description : string;
  inputSchema_type : string;
  inputSchema_properties : list ToolProperty;
  inputSchema_required : option (list string)
}.

Definition dquote : string := String (ascii_of_nat 34) EmptyString.

Definition listTools : Async Thrown (list Tool) :=
  resolve
    [mkTool "list_datasets" "List available ONS datasets with metadata" "object"
       [mkToolProperty "limit" "number" "Maximum number of datasets to return"
          (Some (Js.JNum 20));
        mkToolProperty "offset" "number" "Offset for pagination" (Some (Js.JNum 0))]
       None;
     mkTool "get_dataset" "Get detailed information about a specific dataset" "object"
       [mkToolProperty "dataset_id" "string" "The ID of the dataset to retrieve" None]
       (Some ["dataset_id"]);
     mkTool "search_datasets" "Search for datasets by name or description" "object"
       [mkToolProperty "query" "string" "Search query for datasets" None;
        mkToolProperty "limit" "number" "Maximum number of results" (Some (Js.JNum 10))]
       (Some ["query"]);
     mkTool "get_observation" "Get specific data observations with dimension filters"
       "object"
       [mkToolProperty "dataset_id" "string" "The ID of the dataset" None;
        mkToolProperty "edition" "string" "Dataset edition" (Some (Js.JStr "time-series"));
        mkToolProperty "version" "string" "Dataset version" (Some (Js.JStr "latest"));
        mkToolProperty "dimensions" "object"
          ("Dimension filters as key-value pairs (e.g., {" ++ dquote ++ "geography"
             ++ dquote ++ ": " ++ dquote ++ "K02000001" ++ dquote ++ ", " ++ dquote
             ++ "time" ++ dquote ++ ": " ++ dquote ++ "2023" ++ dquote ++ "})")
          None]
       (Some ["dataset_id"; "dimensions"]);
     mkTool "get_latest_data"
       "Get the latest available data for a dataset with optional filters" "object"
       [mkToolProperty "dataset_id" "string" "The ID of the dataset" None;
        mkToolProperty "geography" "string" "Geographic filter (e.g., K02000001 for UK)"
          None;
        mkToolProperty "time_period" "string" "Time period filter (e.g., 2023, Q1-2023)"
          None]
       (Some ["dataset_id"])].

(** The resource list ([ListResourcesRequestSchema] handler, lines 227-244). *)
Record Resource := mkResource {
  resource_uri : string;
  resource_name : string;
  resource_description : string;
  resource_mimeType : string
}.

Definition listResources : Async Thrown (list Resource) :=
  resolve
    [mkResource "ons://popular_datasets" "Popular ONS Datasets"
       "List of commonly used ONS datasets" "application/json";
     mkResource "ons://api_info" "ONS API Information"
       "Information about the ONS API endpoints and capabilities" "application/json"].

(** One element of [contents]; [text] holds the object that is serialized. *)
Record ResourceContent := mkResourceContent {
  content_uri : string;
  content_mimeType : string;
  content_text : Js.Json
}.

Definition popularDatasetEntry (id title description : string) : Js.Json :=
  Js.JObj [("id", Js.JStr id); ("title", Js.JStr title);
           ("description", Js.JStr description)].

(** The [ReadResourceRequestSchema] handler (lines 247-307). *)
Definition readResource (uri : string) : Async Thrown (list ResourceContent) :=
  if String.eqb uri "ons://popular_datasets" then
    resolve
      [mkResourceContent uri "application/json"
         (Js.JObj
            [("popular_datasets",
              Js.JArr
                [popularDatasetEntry "cpih01" "Consumer Price Index including Housing"
                   "UK inflation data";
                 popularDatasetEntry "regional-gdp-by-year" "Regional GDP by Year"
                   "GDP data by UK regions";
                 popularDatasetEntry "wellbeing-local-authority"
                   "Personal Wellbeing by Local Authority"
                   "Wellbeing statistics by local area";
                 popularDatasetEntry "uk-spending-on-cards" "UK Spending on Cards"
                   "Card spending data"])])]
  else if String.eqb uri "ons://api_info" then
    resolve
      [mkResourceContent uri "application/json"
         (Js.JObj
            [("api_info",
              Js.JObj
                [("base_url", Js.JStr "https://api.beta.ons.gov.uk/v1");
                 ("authentication", Js.JStr "None required");
                 ("rate_limits", Js.JStr "Standard fair use policy");
                 ("data_format", Js.JStr "JSON");
                 ("documentation", Js.JStr "https://developer.ons.gov.uk/")])])]
  else
    throw (McpError InvalidRequest ("Unknown resource: " ++ uri)).

End ToolAdapter.

(* ================================================================== *)
(** ** Notions the properties are stated with *)

(** [t] occurs in [s] as a contiguous run of characters. *)
Definition occurs_in (t s : string) : Prop :=
  exists pre suf, s = pre ++ t ++ suf.

(** [field] contains [query] case-insensitively, as the host maps case: the
    lower-cased [query] occurs in the lower-cased [field]. *)
Definition contains_ci {host : Js.Host} (field query : string) : Prop :=
  occurs_in (Js.toLowerCase query) (Js.toLowerCase field).

(** The host of the examples: the case mapping of the Basic Latin letters,
    other characters left alone.  Every engine maps a string of Basic Latin
    characters this way. *)
Definition basicLatinLowerCase_char (c : ascii) : ascii :=
  let n := nat_of_ascii c in
  if ((65 <=? n) && (n <=? 90))%nat then ascii_of_nat (n + 32) else c.

Fixpoint basicLatinLowerCase (s : string) : string :=
  match s with
  | EmptyString => EmptyString
  | String c s' => String (basicLatinLowerCase_char c) (basicLatinLowerCase s')
  end.

#[global] Instance basicLatin : Js.Host :=
  Js.mkHost basicLatinLowerCase eq_refl.

(** An upstream that honours [limit] and [offset] on its catalogue: every
    listing page it serves is the run of [limit] datasets that starts
    [offset] datasets into the catalogue. *)
Definition HonoursPaging (client : Axios.Instance) (catalog : list ONSDataset.t) : Prop :=
  forall limit offset page,
    client Axios.SDatasetList
      (Axios.mkRequest "/datasets" [("limit", limit); ("offset", offset)])
    = Axios.Resolved page ->
    ONSDatasetList.items page
    = firstn (Z.to_nat limit) (skipn (Z.to_nat offset) catalog).

(** The dataset declares a dimension with identifier [key]. *)
Definition Declares (dataset : ONSDataset.t) (key : string) : Prop :=
  exists ds d,
    ONSDataset.dimensions dataset = Some ds /\ In d ds /\ Dimension.id d = key.

(** Lexical order on strings: by code unit, position by position. *)
Definition lexical_le (a b : string) : Prop := String.leb a b = true.

(** The order a [localeCompare] function sorts by. *)
Definition collation_le (localeCompare : string -> string -> Z) (a b : string) : Prop :=
  localeCompare a b <= 0.

(** The order a comparison function sorts by: [a] may stay before [b]. *)
Definition sorts_before {A : Type} (compareFn : A -> A -> Z) (a b : A) : Prop :=
  compareFn a b <= 0.

(** A consistent comparison function on strings, the kind [sort] expects:
    swapping the arguments flips the sign, and the order is transitive. *)
Definition ConsistentComparator (compare : string -> string -> Z) : Prop :=
  (forall a b, Z.sgn (compare a b) = - Z.sgn (compare b a))
  /\ (forall a b c, compare a b <= 0 -> compare b c <= 0 -> compare a c <= 0).

(** Every adjacent pair of the series has its time values in order. *)
Definition nondecreasing (le : string -> string -> Prop)
    (series : list ONSObservation.t) : Prop :=
  forall i a b,
    nth_error series i = Some a ->
    nth_error series (S i) = Some b ->
    le (ONSDatasetService.timeOf a) (ONSDatasetService.timeOf b).

(** A [localeCompare] for the examples: the default (root) collation on
    strings of Basic Latin letters and digits.  Strings are compared letter
    by letter regardless of case; strings equal on that level are ordered
    with lower case before upper case. *)
Module Collation.

Definition isUpperCase (c : ascii) : bool :=
  let n := nat_of_ascii c in ((65 <=? n) && (n <=? 90))%nat.

Fixpoint caseWeights (s : string) : string :=
  match s with
  | EmptyString => EmptyString
  | String c s' =>
      String (if isUpperCase c then "1"%char else "0"%char) (caseWeights s')
  end.

Definition sign (c : comparison) : Z :=
  match c with
  | Lt => -1
  | Eq => 0
  | Gt => 1
  end.

Definition localeCompare (a b : string) : Z :=
  match String.compare (basicLatinLowerCase a) (basicLatinLowerCase b) with
  | Eq => sign (String.compare (caseWeights a) (caseWeights b))
  | c => sign c
  end.

End Collation.

(** The request [getTimeSeriesData] issues. *)
Definition timeSeriesDimensions (geography : option string) : Js.Record string :=
  [("geography", ONSApiClient.default geography "K02000001"); ("time", "*")].

(** The five tools of the adapter. *)
Definition knownTools : list string :=
  ["list_datasets"; "get_dataset"; "search_datasets"; "get_observation";
   "get_latest_data"].

Definition issuesOf {A : Type} (r : ToolAdapter.ParseResult A)
    : option (list ToolAdapter.ZodIssue) :=
  match r with
  | inl issues => Some issues
  | inr _ => None
  end.

(** The violations of a tool's argument schema by [args], if any. *)
Definition validationIssues (name : string) (args : option (Js.Record Js.Json))
    : option (list ToolAdapter.ZodIssue) :=
  if String.eqb name "list_datasets" then
    issuesOf (ToolAdapter.ListDatasetsArgsSchema args)
  else if String.eqb name "get_dataset" then
    issuesOf (ToolAdapter.GetDatasetArgsSchema args)
  else if String.eqb name "search_datasets" then
    issuesOf (ToolAdapter.SearchDatasetsArgsSchema args)
  else if String.eqb name "get_observation" then
    issuesOf (ToolAdapter.GetObservationArgsSchema args)
  else if String.eqb name "get_latest_data" then
    issuesOf (ToolAdapter.GetLatestDataArgsSchema args)
  else None.

(** A rendering of validation issues for the examples: the paths at fault. *)
Definition sampleZodMessage (issues : list ToolAdapter.ZodIssue) : string :=
  Js.join "; "
    (map (fun issue =>
            Js.join "." (ToolAdapter.path issue) ++ ": "
              ++ ToolAdapter.issue_message issue) issues).

(** The listing request [searchDatasets] issues. *)
Definition searchListingRequest : Axios.Request :=
  Axios.mkRequest "/datasets" [("limit", 100); ("offset", 0)].

Definition datasetRequest (datasetId : string) : Axios.Request :=
  Axios.mkRequest ("/datasets/" ++ datasetId) [].

Definition observationsRequest (datasetId edition version : string)
    (dimensions : Js.Record string) : Axios.Request :=
  Axios.mkRequest (ONSApiClient.observationsUrl datasetId edition version dimensions) [].

Definition optionsRequest (datasetId dimensionId : string) : Axios.Request :=
  Axios.mkRequest
    ("/datasets/" ++ datasetId ++ "/dimensions/" ++ dimensionId ++ "/options") [].

(** Sample data for the examples. *)
Definition sampleDimension (id : string) : Dimension.t :=
  Dimension.mk id id id (Build_Href "o") (Build_Href "s").

Definition sampleDataset (id title description : string)
    (dimensions : option (list Dimension.t)) : ONSDataset.t :=
  ONSDataset.mk id title description
    (Build_Href "s") (Build_Href "l") (Build_Href "e")
    "published" "dataset" "/d" None None None dimensions.

Definition cpih01 : ONSDataset.t :=
  sampleDataset "cpih01" "Consumer Prices Index" "UK inflation data"
    (Some [sampleDimension "time"; sampleDimension "geography";
           sampleDimension "aggregate"]).

Definition trade : ONSDataset.t :=
  sampleDataset "trade" "UK Trade" "Imports and exports; see also CPIH"
    (Some [sampleDimension "time"]).

Definition wellbeing : ONSDataset.t :=
  sampleDataset "wellbeing-quarterly" "Personal wellbeing" "Quarterly estimates" None.

Definition sampleListing : ONSDatasetList.t :=
  ONSDatasetList.mk 3 [cpih01; trade; wellbeing] 100 0 337.

Definition sampleObservation (time value : string) : ONSObservation.t :=
  ONSObservation.mk [("geography", "K02000001"); ("time", time)] value None.

Definition sampleObservations : ONSObservationResponse.t :=
  ONSObservationResponse.mk
    [sampleObservation "Mar-24" "1.0"; sampleObservation "apr-24" "2.0"] [] [] 2.

Definition notFound : Axios.Error :=
  Axios.mkAxiosError
    (Some (Axios.mkErrorResponse 404 (Some "dimension not found")))
    "Request failed with status code 404".

(** An upstream that lists the three sample datasets, serves [cpih01] under
    every dataset path and the two sample observations under every
    observations path, and has no dimension options. *)
Definition sampleClient : Axios.Instance :=
  fun s =>
    match s return Axios.Request -> Axios.Outcome (Axios.payload s) with
    | Axios.SDatasetList => fun _ => Axios.Resolved sampleListing
    | Axios.SDataset => fun _ => Axios.Resolved cpih01
    | Axios.SObservations => fun _ => Axios.Resolved sampleObservations
    | Axios.SOptions => fun _ => Axios.Rejected notFound
    | Axios.SAny => fun _ => Axios.Resolved Js.JNull
    end.

(** An upstream with a catalogue that pages it as asked; the other endpoints
    are those of the sample upstream. *)
Definition param (params : list (string * Z)) (name : string) : Z :=
  match Js.get params name with
  | Some n => n
  | None => 0
  end.

Definition pagingClient (catalog : list ONSDataset.t) : Axios.Instance :=
  fun s =>
    match s return Axios.Request -> Axios.Outcome (Axios.payload s) with
    | Axios.SDatasetList => fun request =>
        let limit := param (Axios.params request) "limit" in
        let offset := param (Axios.params request) "offset" in
        let page := firstn (Z.to_nat limit) (skipn (Z.to_nat offset) catalog) in
        Axios.Resolved
          (ONSDatasetList.mk (Z.of_nat (List.length page)) page limit offset
             (Z.of_nat (List.length catalog)))
    | s' => sampleClient s'
    end.

(** A catalogue of 101 datasets: [trade] first, [cpih01] last, beyond the
    first 100. *)
Definition longCatalog : list ONSDataset.t :=
  (trade :: repeat wellbeing 99 ++ [cpih01])%list.

(** Further requests of the client. *)
Definition listRequest (limit offset : Z) : Axios.Request :=
  Axios.mkRequest "/datasets" [("limit", limit); ("offset", offset)].

Definition latestVersionRequest (datasetId edition : string) : Axios.Request :=
  Axios.mkRequest
    ("/datasets/" ++ datasetId ++ "/editions/" ++ edition ++ "/versions/latest") [].

Definition healthRequest : Axios.Request :=
  Axios.mkRequest "/datasets?limit=1" [].

(** A failure message that carries the client's label. *)
Definition labelled (e : Js.Error) : Prop :=
  exists rest, Js.message e = "ONS API: " ++ rest.

(** The datasets among [ids] that the upstream serves, in the order of
    [ids]. *)
Definition servedDatasets (client : Axios.Instance) (ids : list string)
    : list ONSDataset.t :=
  flat_map
    (fun id =>
       match client Axios.SDataset (datasetRequest id) with
       | Axios.Resolved dataset => [dataset]
       | Axios.Rejected _ => []
       end) ids.

(** The property names a tool's argument schema reads. *)
Definition schemaKeys (name : string) : list string :=
  if String.eqb name "list_datasets" then ["limit"; "offset"]
  else if String.eqb name "get_dataset" then ["dataset_id"]
  else if String.eqb name "search_datasets" then ["query"; "limit"]
  else if String.eqb name "get_observation" then
    ["dataset_id"; "edition"; "version"; "dimensions"]
  else if String.eqb name "get_latest_data" then
    ["dataset_id"; "geography"; "time_period"]
  else [].

Definition isString (v : Js.Json) : bool :=
  match v with
  | Js.JStr _ => true
  | _ => false
  end.

(** A record of strings as the JSON object a caller sends. *)
Definition jsonOfRecord (r : Js.Record string) : list (string * Js.Json) :=
  map (fun kv => (fst kv, Js.JStr (snd kv))) r.

(** The tools and the resources the server advertises. *)
Definition advertisedTools : list ToolAdapter.Tool :=
  match outcome ToolAdapter.listTools with
  | inr tools => tools
  | inl _ => []
  end.

Definition advertisedResources : list ToolAdapter.Resource :=
  match outcome ToolAdapter.listResources with
  | inr resources => resources
  | inl _ => []
  end.

(** An upstream that serves nothing: every request gets status 503. *)
Definition unavailable : Axios.Error :=
  Axios.mkAxiosError (Some (Axios.mkErrorResponse 503 None))
    "Request failed with status code 503".

Definition downClient : Axios.Instance :=
  fun s _ => Axios.Rejected unavailable.

(** An upstream that knows [cpih01] and [trade] only. *)
Definition twoDatasetClient : Axios.Instance :=
  fun s =>
    match s return Axios.Request -> Axios.Outcome (Axios.payload s) with
    | Axios.SDataset => fun request =>
        if String.eqb (Axios.url request) "/datasets/cpih01" then Axios.Resolved cpih01
        else if String.eqb (Axios.url request) "/datasets/trade" then Axios.Resolved trade
        else Axios.Rejected notFound
    | Axios.SAny => fun _ =>
        Axios.Resolved
          (Js.JObj [("downloads",
                     Js.JObj [("csv", Js.JObj [("href", Js.JStr "https://x/y.csv")])])])
    | _ => fun _ => Axios.Rejected notFound
    end.

(** An upstream whose observations all carry the same period. *)
Definition tiedObservations : ONSObservationResponse.t :=
  ONSObservationResponse.mk
    [sampleObservation "2023" "first"; sampleObservation "2023" "second"] [] [] 2.

Definition tiedClient : Axios.Instance :=
  fun s =>
    match s return Axios.Request -> Axios.Outcome (Axios.payload s) with
    | Axios.SObservations => fun _ => Axios.Resolved tiedObservations
    | s' => sampleClient s'
    end.

(* ================================================================== *)
(** ** Strings *)

Lemma append_assoc (a b c : string) : (a ++ b) ++ c = a ++ (b ++ c).
Proof.
  induction a as [|x a IH]; simpl; [reflexivity | now rewrite IH].
Qed.

Lemma append_nil_r (a : string) : a ++ EmptyString = a.
Proof.
  induction a as [|x a IH]; simpl; [reflexivity | now rewrite IH].
Qed.

Lemma prefix_iff (t s : string) :
  prefix t s = true <-> exists suf, s = t ++ suf.
Proof.
  revert s; induction t as [|a t IH]; intros s; simpl.
  - destruct s; split; intros; eauto.
  - destruct s as [|b s]; simpl.
    + split; [discriminate | intros [suf H]; discriminate].
    + destruct (ascii_dec a b) as [->|n].
      * rewrite IH. split; intros [suf H]; exists suf.
        -- now rewrite H.
        -- now injection H.
      * split; [discriminate | intros [suf H]]. injection H as E _. congruence.
Qed.

Lemma includes_iff (s t : string) :
  Js.includes s t = true <-> occurs_in t s.
Proof.
  unfold occurs_in. induction s as [|c s IH]; cbn [Js.includes].
  - rewrite orb_false_r, prefix_iff. split.
    + intros [suf H]. now exists EmptyString, suf.
    + intros [pre [suf H]]. destruct pre; simpl in H; [eauto | discriminate].
  - rewrite orb_true_iff, prefix_iff, IH. split.
    + intros [[suf H] | [pre [suf H]]].
      * now exists EmptyString, suf.
      * exists (String c pre), suf. simpl. now rewrite H.
    + intros [pre [suf H]]. destruct pre as [|c' pre]; simpl in H.
      * left; eauto.
      * right. injection H as _ H. eauto.
Qed.

(* ================================================================== *)
(** ** Arrays *)

Lemma slice0_In {A : Type} (l : list A) (end_ : Z) (x : A) :
  In x (Js.slice0 l end_) -> In x l.
Proof.
  unfold Js.slice0. intros H.
  match type of H with In _ (firstn ?n _) => rewrite <- (firstn_skipn n l) end.
  apply in_or_app. now left.
Qed.

Lemma slice0_length {A : Type} (l : list A) (end_ : Z) :
  0 <= end_ -> Z.of_nat (List.length (Js.slice0 l end_)) <= end_.
Proof.
  intros H. unfold Js.slice0.
  destruct (end_ <? 0) eqn:E; [apply Z.ltb_lt in E; lia|].
  rewrite length_firstn. lia.
Qed.

Lemma slice0_length_le {A : Type} (l : list A) (end_ : Z) :
  (List.length (Js.slice0 l end_) <= List.length l)%nat.
Proof.
  unfold Js.slice0. rewrite length_firstn. lia.
Qed.

(* ================================================================== *)
(** ** The API client *)

Lemma client_get_run (client : Axios.Instance) (s : Axios.Shape)
    (url : string) (params : list (string * Z)) (log : list Axios.Request) :
  ONSApiClient.client_get client s url params log =
  (match client s (Axios.mkRequest url params) with
   | Axios.Resolved data => inr data
   | Axios.Rejected error => inl (ONSApiClient.onRejected error)
   end, (log ++ [Axios.mkRequest url params])%list).
Proof. reflexivity. Qed.

Lemma matches_iff {host : Js.Host} (query : string) (dataset : ONSDataset.t) :
  ONSApiClient.matches (Js.toLowerCase query) dataset = true <->
  contains_ci (ONSDataset.title dataset) query
  \/ contains_ci (ONSDataset.description dataset) query
  \/ contains_ci (ONSDataset.id dataset) query.
Proof.
  unfold ONSApiClient.matches.
  unfold contains_ci. rewrite !orb_true_iff, !includes_iff. tauto.
Qed.

Lemma searchDatasets_run {host : Js.Host} (client : Axios.Instance) (query : string)
    (limit : option Z) (listing : ONSDatasetList.t) (log : list Axios.Request) :
  client Axios.SDatasetList searchListingRequest = Axios.Resolved listing ->
  ONSApiClient.searchDatasets client query limit log =
  (let filteredItems :=
     Js.slice0 (filter (ONSApiClient.matches (Js.toLowerCase query))
                  (ONSDatasetList.items listing))
       (ONSApiClient.default limit 10) in
   inr (ONSDatasetList.mk (Z.of_nat (List.length filteredItems)) filteredItems
          (ONSApiClient.default limit 10) 0 (Z.of_nat (List.length filteredItems))),
   (log ++ [searchListingRequest])%list).
Proof.
  intros H. unfold ONSApiClient.searchDatasets, ONSApiClient.listDatasets, await.
  rewrite client_get_run. cbn [ONSApiClient.default].
  fold searchListingRequest. rewrite H. reflexivity.
Qed.

Lemma pagingClient_honours (catalog : list ONSDataset.t) :
  HonoursPaging (pagingClient catalog) catalog.
Proof.
  intros limit offset page H. unfold pagingClient, param in H.
  cbn [Axios.params Js.get String.eqb Ascii.eqb Bool.eqb] in H.
  injection H as <-. reflexivity.
Qed.

(** C1 (as amended): for every host, query and limit, [searchDatasets]
    issues one listing request, for 100 datasets from offset 0, and returns
    at most [limit] items when the limit (10 when absent) is not negative;
    whatever the limit, every returned item's title, description or id
    contains the query case-insensitively, and every returned item comes
    from the page the upstream returned; so with an upstream that honours
    limit and offset, every returned item is one of the first 100 datasets
    of its catalogue. *)
Theorem searchDatasets_bounded_and_matching {host : Js.Host} :
  forall (client : Axios.Instance) (query : string) (limit : option Z)
         (listing : ONSDatasetList.t),
    client Axios.SDatasetList searchListingRequest = Axios.Resolved listing ->
    exists result : ONSDatasetList.t,
      outcome (ONSApiClient.searchDatasets client query limit) = inr result
      /\ requests (ONSApiClient.searchDatasets client query limit)
         = [Axios.mkRequest "/datasets" [("limit", 100); ("offset", 0)]]
      /\ (0 <= match limit with Some n => n | None => 10 end ->
          Z.of_nat (List.length (ONSDatasetList.items result))
          <= match limit with Some n => n | None => 10 end)
      /\ (forall d, In d (ONSDatasetList.items result) ->
            contains_ci (ONSDataset.title d) query
            \/ contains_ci (ONSDataset.description d) query
            \/ contains_ci (ONSDataset.id d) query)
      /\ (forall d, In d (ONSDatasetList.items result) ->
            In d (ONSDatasetList.items listing))
      /\ (forall catalog,
            HonoursPaging client catalog ->
            forall d, In d (ONSDatasetList.items result) -> In d (firstn 100 catalog)).
Proof.
  intros client query limit listing Hlisting.
  unfold outcome, requests.
  rewrite (searchDatasets_run client query limit [] Hlisting).
  cbn [fst snd ONSDatasetList.items app].
  eexists; split; [reflexivity|]. cbn [ONSDatasetList.items].
  split; [reflexivity|].
  assert (Hpage : forall d,
             In d (Js.slice0 (filter (ONSApiClient.matches (Js.toLowerCase query))
                                (ONSDatasetList.items listing))
                     (ONSApiClient.default limit 10)) ->
             In d (ONSDatasetList.items listing)).
  { intros d Hd. apply slice0_In, filter_In in Hd. tauto. }
  split; [|split; [|split]].
  - intros Hbound. destruct limit; now apply slice0_length.
  - intros d Hd. apply slice0_In, filter_In in Hd. now apply matches_iff.
  - exact Hpage.
  - intros catalog Hpaging d Hd.
    specialize (Hpaging 100 0 listing Hlisting).
    change (Z.to_nat 100) with 100%nat in Hpaging.
    change (Z.to_nat 0) with 0%nat in Hpaging.
    cbn [skipn] in Hpaging. rewrite <- Hpaging. now apply Hpage.
Qed.

(** C1, witness: an upstream that pages a catalogue of 101 datasets with two
    matches, the first dataset and the last: the last is not returned. *)
Lemma searchDatasets_bounded_and_matching_witness :
  exists result : ONSDatasetList.t,
    outcome (ONSApiClient.searchDatasets (pagingClient longCatalog) "CPI" (Some 5))
    = inr result
    /\ Z.of_nat (List.length (ONSDatasetList.items result)) <= 5
    /\ (forall d, In d (ONSDatasetList.items result) -> In d (firstn 100 longCatalog))
    /\ ~ In cpih01 (ONSDatasetList.items result).
Proof.
  destruct (searchDatasets_bounded_and_matching (pagingClient longCatalog) "CPI"
              (Some 5) eq_refl)
    as [result [Hout [_ [Hbound [_ [_ Hpool]]]]]].
  exists result. split; [exact Hout|]. split; [|split].
  - apply Hbound. lia.
  - apply Hpool, pagingClient_honours.
  - intros Hin. apply (Hpool longCatalog (@pagingClient_honours longCatalog)) in Hin.
    change (firstn 100 longCatalog) with (trade :: repeat wellbeing 99) in Hin.
    destruct Hin as [Hin|Hin]; [discriminate Hin|].
    apply repeat_spec in Hin. discriminate Hin.
Defined.

(** C1, counterexample to the bound for every limit: with limit [-1] and two
    matching datasets the slice drops the last match and returns the other
    one, which is more than [-1] items.  The tool [search_datasets] accepts
    that limit and returns the item. *)
Lemma searchDatasets_negative_limit :
  exists result : ONSDatasetList.t,
    outcome (ONSApiClient.searchDatasets sampleClient "CPI" (Some (-1))) = inr result
    /\ ONSDatasetList.items result = [cpih01]
    /\ ~ Z.of_nat (List.length (ONSDatasetList.items result)) <= -1
    /\ outcome (ToolAdapter.handler sampleZodMessage sampleClient "search_datasets"
                  (Some [("query", Js.JStr "CPI"); ("limit", Js.JNum (-1))]))
       = inr (ToolAdapter.SearchDatasetsOutput "CPI" [cpih01] 1).
Proof.
  eexists. split; [reflexivity|]. split; [reflexivity|].
  split; [cbn; lia | reflexivity].
Qed.

(** C9: for every query and limit (the default included), the list
    [searchDatasets] returns has [count] and [total_count] equal to the
    number of items returned and [offset] equal to 0; [total_count] is
    bounded by the size of the listing page, whatever total the upstream
    reported. *)
Theorem searchDatasets_counts {host : Js.Host} :
  forall (client : Axios.Instance) (query : string) (limit : option Z)
         (listing : ONSDatasetList.t),
    client Axios.SDatasetList searchListingRequest = Axios.Resolved listing ->
    exists result : ONSDatasetList.t,
      outcome (ONSApiClient.searchDatasets client query limit) = inr result
      /\ ONSDatasetList.count result
         = Z.of_nat (List.length (ONSDatasetList.items result))
      /\ ONSDatasetList.total_count result
         = Z.of_nat (List.length (ONSDatasetList.items result))
      /\ ONSDatasetList.offset result = 0
      /\ ONSDatasetList.total_count result
         <= Z.of_nat (List.length (ONSDatasetList.items listing)).
Proof.
  intros client query limit listing Hlisting. unfold outcome.
  rewrite (searchDatasets_run client query limit [] Hlisting).
  cbn [fst]. eexists; split; [reflexivity|].
  cbn [ONSDatasetList.count ONSDatasetList.items ONSDatasetList.total_count
       ONSDatasetList.offset].
  repeat split.
  apply Nat2Z.inj_le.
  etransitivity; [apply slice0_length_le | apply filter_length_le].
Qed.

(** C9, witness: the sample upstream reports 337 datasets in total; the
    search for ["CPI"] returns two items and a total of two. *)
Lemma searchDatasets_counts_witness :
  exists result : ONSDatasetList.t,
    outcome (ONSApiClient.searchDatasets sampleClient "CPI" None) = inr result
    /\ ONSDatasetList.count result
       = Z.of_nat (List.length (ONSDatasetList.items result))
    /\ ONSDatasetList.total_count result
       = Z.of_nat (List.length (ONSDatasetList.items result))
    /\ ONSDatasetList.offset result = 0
    /\ ONSDatasetList.total_count result
       <= Z.of_nat (List.length (ONSDatasetList.items sampleListing)).
Proof.
  apply (searchDatasets_counts sampleClient "CPI" None (listing := sampleListing)).
  reflexivity.
Defined.

Lemma occurs_in_append_l (t s pre : string) :
  occurs_in t s -> occurs_in t (pre ++ s).
Proof.
  intros [p [q ->]]. exists (pre ++ p), q. now rewrite append_assoc.
Qed.

Lemma occurs_in_append_r (t s suf : string) :
  occurs_in t s -> occurs_in t (s ++ suf).
Proof.
  intros [p [q ->]]. exists p, (q ++ suf). now rewrite !append_assoc.
Qed.

Lemma occurs_in_refl (t : string) : occurs_in t t.
Proof.
  exists EmptyString, EmptyString. simpl. now rewrite append_nil_r.
Qed.

Lemma occurs_in_join (sep : string) (l : list string) :
  Forall (fun x => occurs_in x (Js.join sep l)) l.
Proof.
  unfold Js.join. induction l as [|x l IH]; constructor.
  - destruct l as [|y l]; cbn [concat].
    + apply occurs_in_refl.
    + apply occurs_in_append_r, occurs_in_refl.
  - destruct l as [|y l]; [constructor|].
    cbn [concat]. cbn [concat] in IH. revert IH. apply Forall_impl.
    intros z Hz. now apply occurs_in_append_l, occurs_in_append_l.
Qed.

(** C5: for every dimensions mapping, [getObservations] requests the
    versioned observations path followed by [?] and the entries written as
    [key=value] joined with [&]; keys and values occur in the URL verbatim,
    without escaping.  The mapping [{geography: 'K02000001', time: '2023'}]
    yields [geography=K02000001&time=2023], and reserved characters in a
    value are passed on as they are. *)
Theorem getObservations_request_url :
  forall (client : Axios.Instance) (datasetId : string)
         (edition version : option string) (dimensions : Js.Record string),
    let url :=
      "/datasets/" ++ datasetId
        ++ "/editions/" ++ ONSApiClient.default edition "time-series"
        ++ "/versions/" ++ ONSApiClient.default version "latest"
        ++ "/observations" ++ "?"
        ++ String.concat "&" (map (fun kv => fst kv ++ "=" ++ snd kv) dimensions) in
    requests (ONSApiClient.getObservations client datasetId edition version dimensions)
      = [Axios.mkRequest url []]
    /\ Forall (fun kv => occurs_in (fst kv ++ "=" ++ snd kv) url) dimensions
    /\ requests (ONSApiClient.getObservations client "cpih01" None None
                   [("geography", "K02000001"); ("time", "2023")])
       = [Axios.mkRequest
            "/datasets/cpih01/editions/time-series/versions/latest/observations?geography=K02000001&time=2023"
            []]
    /\ requests (ONSApiClient.getObservations client "cpih01" None None
                   [("time", "2023 Q1&x=y/z?")])
       = [Axios.mkRequest
            "/datasets/cpih01/editions/time-series/versions/latest/observations?time=2023 Q1&x=y/z?"
            []].
Proof.
  intros client datasetId edition version dimensions url.
  assert (Hmap : map (fun '(key, value) => key ++ "=" ++ value) dimensions
                 = map (fun kv : string * string => fst kv ++ "=" ++ snd kv) dimensions).
  { apply map_ext. now intros [k v]. }
  split; [|split; [|split; reflexivity]].
  - unfold requests, ONSApiClient.getObservations, ONSApiClient.observationsUrl.
    rewrite client_get_run. cbn [snd app]. unfold Js.entries, Js.join.
    rewrite Hmap. subst url. cbn [append]. reflexivity.
  - subst url.
    pose proof (occurs_in_join "&"
                  (map (fun kv : string * string => fst kv ++ "=" ++ snd kv) dimensions))
      as H.
    rewrite Forall_map in H. revert H. apply Forall_impl. intros kv H.
    unfold Js.join in H. repeat apply occurs_in_append_l. exact H.
Qed.

(** C6: every request of the client wrapper that axios rejects fails with
    the interceptor's translation of the rejection: status 404 gives the
    resource-not-found failure, 400 bad-request, 429 rate-limit, 500
    server-error, any other status the generic HTTP failure carrying the
    status code, each followed by the upstream message when one is present
    (by the transport's message otherwise); a rejection without a response
    gives the network-error failure. *)
Theorem interceptor_translates_rejections :
  forall (client : Axios.Instance) (s : Axios.Shape) (url : string)
         (params : list (string * Z)) (error : Axios.Error),
    client s (Axios.mkRequest url params) = Axios.Rejected error ->
    exists failure : Js.Error,
      outcome (ONSApiClient.client_get client s url params) = inl failure
      /\ match Axios.response error with
         | None =>
             failure = Js.mkError ("ONS API: Network error - " ++ Axios.message error)
         | Some response =>
             let status := Axios.status response in
             let message :=
               match Axios.data_message response with
               | Some upstream =>
                   if String.eqb upstream EmptyString
                   then Axios.message error else upstream
               | None => Axios.message error
               end in
             (status = 404 ->
              failure = Js.mkError ("ONS API: Resource not found - " ++ message))
             /\ (status = 400 ->
                 failure = Js.mkError ("ONS API: Bad request - " ++ message))
             /\ (status = 429 ->
                 failure = Js.mkError ("ONS API: Rate limit exceeded - " ++ message))
             /\ (status = 500 ->
                 failure = Js.mkError ("ONS API: Server error - " ++ message))
             /\ (status <> 404 -> status <> 400 -> status <> 429 -> status <> 500 ->
                 failure = Js.mkError
                             ("ONS API: HTTP " ++ Js.Number_toString status
                                ++ " - " ++ message))
             /\ (forall upstream, Axios.data_message response = Some upstream ->
                 occurs_in upstream (Js.message failure))
         end.
Proof.
  intros client s url params error Hrej.
  exists (ONSApiClient.onRejected error). split.
  - unfold outcome. rewrite client_get_run, Hrej. reflexivity.
  - unfold ONSApiClient.onRejected.
    destruct (Axios.response error) as [response|]; [|reflexivity].
    set (status := Axios.status response).
    assert (Hmsg : Js.or_else (Axios.data_message response) (Axios.message error)
                   = match Axios.data_message response with
                     | Some upstream =>
                         if String.eqb upstream EmptyString
                         then Axios.message error else upstream
                     | None => Axios.message error
                     end).
    { unfold Js.or_else, Js.truthy.
      destruct (Axios.data_message response) as [u|]; [|reflexivity].
      now destruct (String.eqb u EmptyString). }
    cbv zeta. rewrite Hmsg. clear Hmsg.
    set (message := match Axios.data_message response with
                    | Some upstream => _
                    | None => _
                    end).
    assert (Hocc : forall prefix upstream,
               Axios.data_message response = Some upstream ->
               occurs_in upstream (prefix ++ message)).
    { intros prefix upstream Hu. apply occurs_in_append_l. subst message.
      rewrite Hu. destruct (String.eqb_spec upstream EmptyString) as [->|_].
      - exists EmptyString, (Axios.message error). reflexivity.
      - apply occurs_in_refl. }
    repeat split.
    + intros H. now rewrite H.
    + intros H. now rewrite H.
    + intros H. now rewrite H.
    + intros H. now rewrite H.
    + intros H1 H2 H3 H4.
      apply Z.eqb_neq in H1, H2, H3, H4. now rewrite H1, H2, H3, H4.
    + intros upstream Hu.
      destruct (status =? 404); [|destruct (status =? 400);
        [|destruct (status =? 429); [|destruct (status =? 500)]]];
        cbn [Js.message]; try now apply Hocc.
      apply occurs_in_append_l, occurs_in_append_l. now apply Hocc.
Qed.

(** C6, witness: the sample upstream answers an options request with
    status 404 and an upstream message. *)
Lemma interceptor_translates_rejections_witness :
  exists failure : Js.Error,
    outcome (ONSApiClient.client_get sampleClient Axios.SOptions "/x" []) = inl failure
    /\ failure = Js.mkError "ONS API: Resource not found - dimension not found".
Proof.
  destruct (interceptor_translates_rejections sampleClient Axios.SOptions "/x" []
              (error := notFound) eq_refl) as [failure [Hout Hcases]].
  exists failure. split; [exact Hout|].
  cbn in Hcases. destruct Hcases as [H404 _]. now apply H404.
Defined.

(* ================================================================== *)
(** ** The dataset service: [getLatestData] *)

Lemma declares_iff (dataset : ONSDataset.t) (key : string) :
  ONSDatasetService.declares dataset key = true <-> Declares dataset key.
Proof.
  unfold ONSDatasetService.declares, Declares, Js.some.
  destruct (ONSDataset.dimensions dataset) as [ds|].
  - rewrite existsb_exists. split.
    + intros [d [Hin Heq]]. apply String.eqb_eq in Heq. now exists ds, d.
    + intros [ds' [d [Hds [Hin Heq]]]]. injection Hds as <-.
      exists d. split; [exact Hin | now apply String.eqb_eq].
  - split; [discriminate | intros [ds [d [H _]]]; discriminate].
Qed.

Lemma truthy_iff (s : string) : Js.truthy s = true <-> s <> EmptyString.
Proof.
  unfold Js.truthy. destruct (String.eqb_spec s EmptyString); simpl; split; congruence.
Qed.

Lemma getLatestData_run (client : Axios.Instance) (datasetId : string)
    (geography timePeriod : option string) (dataset : ONSDataset.t)
    (log : list Axios.Request) :
  client Axios.SDataset (datasetRequest datasetId) = Axios.Resolved dataset ->
  let dimensions :=
    ONSDatasetService.getLatestData_dimensions dataset geography timePeriod in
  let request := observationsRequest datasetId "time-series" "latest" dimensions in
  ONSDatasetService.getLatestData client datasetId geography timePeriod log =
  (match client Axios.SObservations request with
   | Axios.Resolved observations =>
       inr (ONSDatasetService.mkLatestData datasetId
              (ONSDataset.title dataset) (ONSDataset.description dataset)
              (ONSDatasetService.mkFiltersApplied geography timePeriod)
              dimensions
              (ONSObservationResponse.total_observations observations)
              (ONSObservationResponse.observations observations)
              (ONSObservationResponse.dimensions observations)
              (ONSObservationResponse.links observations))
   | Axios.Rejected error =>
       inl (Js.mkError
              ("Failed to get latest data for " ++ datasetId ++ ": "
                 ++ Js.message (ONSApiClient.onRejected error)))
   end, (log ++ [datasetRequest datasetId; request])%list).
Proof.
  intros Hds dimensions request.
  unfold ONSDatasetService.getLatestData, ONSDatasetService.getDataset,
    ONSApiClient.getDataset, ONSDatasetService.getObservations,
    ONSApiClient.getObservations, try_catch, await.
  rewrite client_get_run. fold (datasetRequest datasetId). rewrite Hds.
  cbn [ONSApiClient.default]. rewrite client_get_run.
  fold dimensions.
  fold (observationsRequest datasetId "time-series" "latest" dimensions).
  fold request. rewrite <- app_assoc. cbn [app].
  destruct (client Axios.SObservations request); reflexivity.
Qed.

(** C2: for every dataset, [getLatestData] called with neither geography nor
    time period requests observations with the heuristic filter: it holds
    [time = '*'] exactly when the dataset declares a dimension [time],
    [geography = 'K02000001'] exactly when it declares a dimension
    [geography], and no other key; the same filter is reported as
    [dimensions_used]. *)
Theorem getLatestData_default_filter :
  forall (client : Axios.Instance) (datasetId : string) (dataset : ONSDataset.t),
    client Axios.SDataset (datasetRequest datasetId) = Axios.Resolved dataset ->
    exists dimensions : Js.Record string,
      requests (ONSDatasetService.getLatestData client datasetId None None)
      = [datasetRequest datasetId;
         observationsRequest datasetId "time-series" "latest" dimensions]
      /\ (In ("time", "*") dimensions <-> Declares dataset "time")
      /\ (In ("geography", "K02000001") dimensions <-> Declares dataset "geography")
      /\ (forall key value, In (key, value) dimensions ->
            (key, value) = ("time", "*") \/ (key, value) = ("geography", "K02000001"))
      /\ (forall result,
            outcome (ONSDatasetService.getLatestData client datasetId None None)
            = inr result ->
            ONSDatasetService.dimensions_used result = dimensions).
Proof.
  intros client datasetId dataset Hds.
  exists (ONSDatasetService.getLatestData_dimensions dataset None None).
  unfold requests, outcome.
  rewrite (getLatestData_run client datasetId None None [] Hds).
  cbn [fst snd app]. split; [reflexivity|].
  rewrite <- and_assoc, <- and_assoc. split.
  - rewrite <- !declares_iff.
    unfold ONSDatasetService.getLatestData_dimensions.
    cbn [Js.keys map List.length Nat.eqb].
    destruct (ONSDatasetService.declares dataset "time"),
             (ONSDatasetService.declares dataset "geography");
      cbn [Js.set String.eqb Ascii.eqb Bool.eqb In];
      intuition congruence.
  - intros result H.
    destruct (client Axios.SObservations _); [|discriminate].
    injection H as <-. reflexivity.
Qed.

(** C2, witness: [cpih01] declares both dimensions. *)
Lemma getLatestData_default_filter_witness :
  exists dimensions : Js.Record string,
    requests (ONSDatasetService.getLatestData sampleClient "cpih01" None None)
    = [datasetRequest "cpih01";
       observationsRequest "cpih01" "time-series" "latest" dimensions]
    /\ In ("time", "*") dimensions
    /\ In ("geography", "K02000001") dimensions.
Proof.
  destruct (getLatestData_default_filter sampleClient "cpih01" (dataset := cpih01) eq_refl)
    as [dimensions [Hreq [Htime [Hgeo _]]]].
  exists dimensions. split; [exact Hreq|]. split.
  - apply Htime. exists [sampleDimension "time"; sampleDimension "geography";
                         sampleDimension "aggregate"], (sampleDimension "time").
    split; [reflexivity|]. split; [now left | reflexivity].
  - apply Hgeo. exists [sampleDimension "time"; sampleDimension "geography";
                        sampleDimension "aggregate"], (sampleDimension "geography").
    split; [reflexivity|]. split; [right; now left | reflexivity].
Defined.

Lemma getLatestData_dimensions_both (dataset : ONSDataset.t) (geography timePeriod : string) :
  geography <> EmptyString -> timePeriod <> EmptyString ->
  ONSDatasetService.getLatestData_dimensions dataset (Some geography) (Some timePeriod)
  = [("geography", geography); ("time", timePeriod)].
Proof.
  intros Hg Ht. apply truthy_iff in Hg, Ht.
  unfold ONSDatasetService.getLatestData_dimensions. rewrite Hg, Ht. reflexivity.
Qed.

Lemma getLatestData_dimensions_geography (dataset : ONSDataset.t) (geography : string) :
  geography <> EmptyString ->
  ONSDatasetService.getLatestData_dimensions dataset (Some geography) None
  = [("geography", geography)].
Proof.
  intros Hg. apply truthy_iff in Hg.
  unfold ONSDatasetService.getLatestData_dimensions. rewrite Hg. reflexivity.
Qed.

Lemma getLatestData_dimensions_time (dataset : ONSDataset.t) (timePeriod : string) :
  timePeriod <> EmptyString ->
  ONSDatasetService.getLatestData_dimensions dataset None (Some timePeriod)
  = [("time", timePeriod)].
Proof.
  intros Ht. apply truthy_iff in Ht.
  unfold ONSDatasetService.getLatestData_dimensions. rewrite Ht. reflexivity.
Qed.

(** What [getLatestData] does once the filter is known: the two requests it
    issues, and its result when the observations request resolves. *)
Lemma getLatestData_with_filter (client : Axios.Instance) (datasetId : string)
    (geography timePeriod : option string) (dataset : ONSDataset.t)
    (dimensions : Js.Record string) :
  client Axios.SDataset (datasetRequest datasetId) = Axios.Resolved dataset ->
  ONSDatasetService.getLatestData_dimensions dataset geography timePeriod = dimensions ->
  requests (ONSDatasetService.getLatestData client datasetId geography timePeriod)
  = [datasetRequest datasetId;
     observationsRequest datasetId "time-series" "latest" dimensions]
  /\ (forall observations,
        client Axios.SObservations
          (observationsRequest datasetId "time-series" "latest" dimensions)
        = Axios.Resolved observations ->
        exists result,
          outcome (ONSDatasetService.getLatestData client datasetId geography timePeriod)
          = inr result
          /\ ONSDatasetService.dimensions_used result = dimensions
          /\ ONSDatasetService.filters_applied result
             = ONSDatasetService.mkFiltersApplied geography timePeriod).
Proof.
  intros Hds Hdims. unfold requests, outcome.
  rewrite (getLatestData_run client datasetId geography timePeriod [] Hds).
  rewrite Hdims. cbn [fst snd app]. split; [reflexivity|].
  intros observations Hobs. rewrite Hobs. eexists. split; [reflexivity|].
  split; reflexivity.
Qed.

(** C3 (as amended): for every dataset, when [getLatestData] is called with
    a non-empty geography and a non-empty time period, the default heuristic
    plays no part: the observations request carries exactly
    [{geography: given, time: given}], and the result reports that filter as
    [dimensions_used] and the two given values as [filters_applied]. *)
Theorem getLatestData_explicit_filter :
  forall (client : Axios.Instance) (datasetId : string) (dataset : ONSDataset.t)
         (geography timePeriod : string),
    geography <> EmptyString ->
    timePeriod <> EmptyString ->
    client Axios.SDataset (datasetRequest datasetId) = Axios.Resolved dataset ->
    let dimensions := [("geography", geography); ("time", timePeriod)] in
    requests (ONSDatasetService.getLatestData client datasetId
                (Some geography) (Some timePeriod))
    = [datasetRequest datasetId;
       observationsRequest datasetId "time-series" "latest" dimensions]
    /\ (forall observations,
          client Axios.SObservations
            (observationsRequest datasetId "time-series" "latest" dimensions)
          = Axios.Resolved observations ->
          exists result,
            outcome (ONSDatasetService.getLatestData client datasetId
                       (Some geography) (Some timePeriod))
            = inr result
            /\ ONSDatasetService.dimensions_used result = dimensions
            /\ ONSDatasetService.filters_applied result
               = ONSDatasetService.mkFiltersApplied (Some geography) (Some timePeriod)).
Proof.
  intros client datasetId dataset geography timePeriod Hg Ht Hds dimensions.
  apply (getLatestData_with_filter client datasetId (Some geography) (Some timePeriod) Hds).
  now apply getLatestData_dimensions_both.
Qed.

(** C3, witness: geography [K02000001] and period [2023] on the sample
    upstream. *)
Lemma getLatestData_explicit_filter_witness :
  requests (ONSDatasetService.getLatestData sampleClient "cpih01"
              (Some "K02000001") (Some "2023"))
  = [datasetRequest "cpih01";
     observationsRequest "cpih01" "time-series" "latest"
       [("geography", "K02000001"); ("time", "2023")]].
Proof.
  apply (getLatestData_explicit_filter sampleClient "cpih01" (dataset := cpih01)
           (geography := "K02000001") (timePeriod := "2023")).
  - discriminate.
  - discriminate.
  - reflexivity.
Defined.

(** C3, counterexample to the claim for every supplied value: with both
    arguments supplied as empty strings the guards treat them as absent, and
    the filter sent is the heuristic's, not the two given values. *)
Lemma getLatestData_empty_arguments_use_defaults :
  exists result,
    outcome (ONSDatasetService.getLatestData sampleClient "cpih01"
               (Some EmptyString) (Some EmptyString))
    = inr result
    /\ requests (ONSDatasetService.getLatestData sampleClient "cpih01"
                   (Some EmptyString) (Some EmptyString))
       = [datasetRequest "cpih01";
          observationsRequest "cpih01" "time-series" "latest"
            [("time", "*"); ("geography", "K02000001")]]
    /\ ONSDatasetService.dimensions_used result
       = [("time", "*"); ("geography", "K02000001")]
    /\ ONSDatasetService.dimensions_used result
       <> [("geography", EmptyString); ("time", EmptyString)].
Proof.
  eexists. split; [reflexivity|]. split; [reflexivity|].
  split; [reflexivity|]. cbn. discriminate.
Qed.

(** C10 (as amended): for every dataset, when [getLatestData] is called with
    exactly one of geography and time period, and that one is non-empty, no
    default is applied for the other: the observations request carries only
    the supplied key and value, whatever dimensions the dataset declares. *)
Theorem getLatestData_single_filter :
  forall (client : Axios.Instance) (datasetId : string) (dataset : ONSDataset.t)
         (given : string),
    given <> EmptyString ->
    client Axios.SDataset (datasetRequest datasetId) = Axios.Resolved dataset ->
    (requests (ONSDatasetService.getLatestData client datasetId (Some given) None)
     = [datasetRequest datasetId;
        observationsRequest datasetId "time-series" "latest" [("geography", given)]]
     /\ (forall observations,
           client Axios.SObservations
             (observationsRequest datasetId "time-series" "latest" [("geography", given)])
           = Axios.Resolved observations ->
           exists result,
             outcome (ONSDatasetService.getLatestData client datasetId (Some given) None)
             = inr result
             /\ ONSDatasetService.dimensions_used result = [("geography", given)]
             /\ ONSDatasetService.filters_applied result
                = ONSDatasetService.mkFiltersApplied (Some given) None))
    /\ (requests (ONSDatasetService.getLatestData client datasetId None (Some given))
        = [datasetRequest datasetId;
           observationsRequest datasetId "time-series" "latest" [("time", given)]]
        /\ (forall observations,
              client Axios.SObservations
                (observationsRequest datasetId "time-series" "latest" [("time", given)])
              = Axios.Resolved observations ->
              exists result,
                outcome (ONSDatasetService.getLatestData client datasetId None (Some given))
                = inr result
                /\ ONSDatasetService.dimensions_used result = [("time", given)]
                /\ ONSDatasetService.filters_applied result
                   = ONSDatasetService.mkFiltersApplied None (Some given))).
Proof.
  intros client datasetId dataset given Hgiven Hds. split.
  - apply (getLatestData_with_filter client datasetId (Some given) None Hds).
    now apply getLatestData_dimensions_geography.
  - apply (getLatestData_with_filter client datasetId None (Some given) Hds).
    now apply getLatestData_dimensions_time.
Qed.

(** C10, witness: geography alone on [cpih01], which declares a time
    dimension: no time filter is sent. *)
Lemma getLatestData_single_filter_witness :
  requests (ONSDatasetService.getLatestData sampleClient "cpih01" (Some "E92000001") None)
  = [datasetRequest "cpih01";
     observationsRequest "cpih01" "time-series" "latest" [("geography", "E92000001")]].
Proof.
  apply (getLatestData_single_filter sampleClient "cpih01" (dataset := cpih01)
           (given := "E92000001")).
  - discriminate.
  - reflexivity.
Defined.

(** C10, counterexample to the claim for every supplied value: a geography
    supplied as the empty string, with no time period, is treated as absent,
    and both defaults are applied. *)
Lemma getLatestData_empty_geography_uses_defaults :
  exists result,
    outcome (ONSDatasetService.getLatestData sampleClient "cpih01"
               (Some EmptyString) None)
    = inr result
    /\ requests (ONSDatasetService.getLatestData sampleClient "cpih01"
                   (Some EmptyString) None)
       = [datasetRequest "cpih01";
          observationsRequest "cpih01" "time-series" "latest"
            [("time", "*"); ("geography", "K02000001")]]
    /\ ONSDatasetService.dimensions_used result
       = [("time", "*"); ("geography", "K02000001")]
    /\ ONSDatasetService.dimensions_used result <> [("geography", EmptyString)].
Proof.
  eexists. split; [reflexivity|]. split; [reflexivity|].
  split; [reflexivity|]. cbn. discriminate.
Qed.

(* ================================================================== *)
(** ** The dataset service: [getTimeSeriesData] *)

Section Sorting.

Context {A : Type}.
Variable compareFn : A -> A -> Z.

Hypothesis compareFn_total : forall a b, compareFn a b <= 0 \/ compareFn b a <= 0.

Lemma sort_insert_perm (x : A) (l : list A) :
  Permutation (x :: l) (Js.sort_insert compareFn x l).
Proof.
  induction l as [|y l IH]; cbn [Js.sort_insert]; [reflexivity|].
  destruct (compareFn x y <=? 0); [reflexivity|].
  rewrite perm_swap. now apply perm_skip.
Qed.

Lemma sort_perm (l : list A) : Permutation l (Js.sort compareFn l).
Proof.
  induction l as [|x l IH]; cbn [Js.sort]; [reflexivity|].
  rewrite <- sort_insert_perm. now apply perm_skip.
Qed.

Lemma sort_insert_sorted (x : A) (l : list A) :
  LocallySorted (sorts_before compareFn) l ->
  LocallySorted (sorts_before compareFn) (Js.sort_insert compareFn x l).
Proof.
  assert (Hgt : forall a b, (compareFn a b <=? 0) = false -> sorts_before compareFn b a).
  { intros a b E. apply Z.leb_gt in E. unfold sorts_before.
    destruct (compareFn_total a b); lia. }
  induction 1 as [|y|y z l Hl IH Hyz]; cbn [Js.sort_insert].
  - constructor.
  - destruct (compareFn x y <=? 0) eqn:E.
    + apply Z.leb_le in E. repeat constructor. exact E.
    + repeat constructor. now apply Hgt.
  - destruct (compareFn x y <=? 0) eqn:E.
    + apply Z.leb_le in E. repeat constructor; assumption.
    + cbn [Js.sort_insert] in IH.
      destruct (compareFn x z <=? 0) eqn:E'.
      * constructor; [exact IH | now apply Hgt].
      * constructor; assumption.
Qed.

Lemma sort_sorted (l : list A) :
  LocallySorted (sorts_before compareFn) (Js.sort compareFn l).
Proof.
  induction l as [|x l IH]; cbn [Js.sort]; [constructor|].
  now apply sort_insert_sorted.
Qed.

End Sorting.

Lemma LocallySorted_adjacent {A : Type} (R : A -> A -> Prop) (l : list A) :
  LocallySorted R l ->
  forall i a b, nth_error l i = Some a -> nth_error l (S i) = Some b -> R a b.
Proof.
  induction 1 as [|y|y z l Hl IH Hyz]; intros i a b Ha Hb.
  - destruct i; discriminate.
  - destruct i as [|i]; cbn in Hb; [discriminate | destruct i; discriminate].
  - destruct i as [|i].
    + cbn in Ha, Hb. congruence.
    + apply (IH i); assumption.
Qed.

Lemma getTimeSeriesData_run (localeCompare : string -> string -> Z)
    (client : Axios.Instance) (datasetId : string) (geography : option string)
    (log : list Axios.Request) :
  let request :=
    observationsRequest datasetId "time-series" "latest" (timeSeriesDimensions geography) in
  ONSDatasetService.getTimeSeriesData localeCompare client datasetId geography log =
  (match client Axios.SObservations request with
   | Axios.Resolved observations =>
       inr (ONSDatasetService.mkTimeSeries datasetId
              (ONSApiClient.default geography "K02000001")
              (Js.sort (ONSDatasetService.compareFn localeCompare)
                 (ONSObservationResponse.observations observations))
              (ONSObservationResponse.total_observations observations))
   | Axios.Rejected error => inl (ONSApiClient.onRejected error)
   end, (log ++ [request])%list).
Proof.
  intros request.
  unfold ONSDatasetService.getTimeSeriesData, ONSDatasetService.getObservations,
    ONSApiClient.getObservations, await.
  cbn [ONSApiClient.default]. rewrite client_get_run.
  fold (observationsRequest datasetId "time-series" "latest"
          [("geography", ONSApiClient.default geography "K02000001"); ("time", "*")]).
  fold (timeSeriesDimensions geography). fold request.
  destruct (client Axios.SObservations request); reflexivity.
Qed.

(** C4 (as amended): for every observation response and every consistent
    [localeCompare], the [time_series] returned by [getTimeSeriesData] holds
    the observations of the response, and every adjacent pair is in order
    under the collation of [localeCompare] applied to their time values
    ([a] before [b] only if [a.localeCompare(b) <= 0]). *)
Theorem getTimeSeriesData_sorted_by_collation :
  forall (localeCompare : string -> string -> Z) (client : Axios.Instance)
         (datasetId : string) (geography : option string)
         (observations : ONSObservationResponse.t),
    ConsistentComparator localeCompare ->
    client Axios.SObservations
      (observationsRequest datasetId "time-series" "latest"
         (timeSeriesDimensions geography))
    = Axios.Resolved observations ->
    exists result,
      outcome (ONSDatasetService.getTimeSeriesData localeCompare client datasetId geography)
      = inr result
      /\ nondecreasing (collation_le localeCompare)
           (ONSDatasetService.time_series result)
      /\ Permutation (ONSObservationResponse.observations observations)
           (ONSDatasetService.time_series result).
Proof.
  intros localeCompare client datasetId geography observations [Hsign _] Hobs.
  assert (Htotal : forall a b, localeCompare a b <= 0 \/ localeCompare b a <= 0).
  { intros a b. specialize (Hsign a b).
    pose proof (Z.sgn_spec (localeCompare a b)).
    pose proof (Z.sgn_spec (localeCompare b a)). lia. }
  unfold outcome. rewrite getTimeSeriesData_run. cbv zeta. rewrite Hobs.
  cbn [fst]. eexists. split; [reflexivity|].
  cbn [ONSDatasetService.time_series]. split.
  - intros i a b Ha Hb.
    apply (LocallySorted_adjacent
             (sort_sorted (ONSDatasetService.compareFn localeCompare)
                (fun x y => Htotal _ _) _) i Ha Hb).
  - apply sort_perm.
Qed.

Lemma String_compare_refl (x : string) : String.compare x x = Eq.
Proof.
  pose proof (String.compare_antisym x x) as H.
  destruct (String.compare x x); [reflexivity | discriminate | discriminate].
Qed.

Lemma String_compare_lt_trans (x y z : string) :
  String.compare x y = Lt -> String.compare y z = Lt -> String.compare x z = Lt.
Proof.
  revert y z; induction x as [|a x IH]; intros [|b y] [|c z]; cbn [String.compare];
    try discriminate; try reflexivity.
  unfold Ascii.compare.
  destruct (N.compare_spec (N_of_ascii a) (N_of_ascii b)) as [Eab|Lab|Gab];
    try discriminate;
    destruct (N.compare_spec (N_of_ascii b) (N_of_ascii c)) as [Ebc|Lbc|Gbc];
    try discriminate;
    destruct (N.compare_spec (N_of_ascii a) (N_of_ascii c)) as [Eac|Lac|Gac];
    try reflexivity; try lia.
  apply IH.
Qed.

(** Composition of two comparisons that are not [Gt]. *)
Lemma String_compare_le_trans (x y z : string) :
  String.compare x y <> Gt -> String.compare y z <> Gt ->
  String.compare x z <> Gt
  /\ (String.compare x y = Lt \/ String.compare y z = Lt -> String.compare x z = Lt).
Proof.
  intros Hxy Hyz.
  destruct (String.compare x y) eqn:Exy; [| |congruence];
    destruct (String.compare y z) eqn:Eyz; try congruence.
  - apply String.compare_eq_iff in Exy, Eyz. subst.
    rewrite String_compare_refl. split; [discriminate | intros [H|H]; discriminate].
  - apply String.compare_eq_iff in Exy. subst. rewrite Eyz.
    split; [discriminate | reflexivity].
  - apply String.compare_eq_iff in Eyz. subst. rewrite Exy.
    split; [discriminate | reflexivity].
  - rewrite (String_compare_lt_trans _ _ _ Exy Eyz).
    split; [discriminate | reflexivity].
Qed.

Lemma Collation_localeCompare_le (a b : string) :
  Collation.localeCompare a b <= 0 <->
  String.compare (basicLatinLowerCase a) (basicLatinLowerCase b) = Lt
  \/ (String.compare (basicLatinLowerCase a) (basicLatinLowerCase b) = Eq
      /\ String.compare (Collation.caseWeights a) (Collation.caseWeights b) <> Gt).
Proof.
  unfold Collation.localeCompare.
  destruct (String.compare (basicLatinLowerCase a) (basicLatinLowerCase b));
    destruct (String.compare (Collation.caseWeights a) (Collation.caseWeights b));
    cbn [Collation.sign]; split; intros H;
    try lia; try (left; reflexivity); try (right; split; [reflexivity|discriminate]);
    destruct H as [H|[H1 H2]]; congruence.
Qed.

Lemma Collation_localeCompare_consistent :
  ConsistentComparator Collation.localeCompare.
Proof.
  split.
  - intros a b. unfold Collation.localeCompare.
    rewrite (String.compare_antisym (basicLatinLowerCase b) (basicLatinLowerCase a)).
    rewrite (String.compare_antisym (Collation.caseWeights b) (Collation.caseWeights a)).
    destruct (String.compare (basicLatinLowerCase a) (basicLatinLowerCase b));
      destruct (String.compare (Collation.caseWeights a) (Collation.caseWeights b));
      reflexivity.
  - intros a b c. rewrite !Collation_localeCompare_le.
    intros [Hab|[Hab Hab']] [Hbc|[Hbc Hbc']].
    + left. now apply String_compare_lt_trans with (basicLatinLowerCase b).
    + left. apply String.compare_eq_iff in Hbc. now rewrite <- Hbc.
    + left. apply String.compare_eq_iff in Hab. now rewrite Hab.
    + right. split.
      * apply String.compare_eq_iff in Hab, Hbc. rewrite Hab, Hbc.
        apply String_compare_refl.
      * now apply (String_compare_le_trans _ _ _ Hab' Hbc').
Qed.

(** C4, witness: the sample upstream under the example collation. *)
Lemma getTimeSeriesData_sorted_by_collation_witness :
  exists result,
    outcome (ONSDatasetService.getTimeSeriesData Collation.localeCompare
               sampleClient "cpih01" None)
    = inr result
    /\ nondecreasing (collation_le Collation.localeCompare)
         (ONSDatasetService.time_series result)
    /\ Permutation (ONSObservationResponse.observations sampleObservations)
         (ONSDatasetService.time_series result).
Proof.
  apply (getTimeSeriesData_sorted_by_collation
           (localeCompare := Collation.localeCompare)
           sampleClient "cpih01" None (observations := sampleObservations)).
  - exact Collation_localeCompare_consistent.
  - reflexivity.
Defined.

(** C4, counterexample to lexical order: the periods ["Mar-24"] and
    ["apr-24"] come back as ["apr-24"], ["Mar-24"], the order of the
    collation, while ["apr-24"] is lexically after ["Mar-24"]. *)
Lemma getTimeSeriesData_not_lexical :
  exists result,
    outcome (ONSDatasetService.getTimeSeriesData Collation.localeCompare
               sampleClient "cpih01" None)
    = inr result
    /\ map ONSDatasetService.timeOf (ONSDatasetService.time_series result)
       = ["apr-24"; "Mar-24"]
    /\ ~ nondecreasing lexical_le (ONSDatasetService.time_series result).
Proof.
  eexists. split; [reflexivity|]. split; [reflexivity|].
  intros H. specialize (H 0%nat _ _ eq_refl eq_refl). discriminate H.
Qed.

(* ================================================================== *)
(** ** The dataset service: [getDatasetDimensions] *)

Lemma dimensionDetail_run (client : Axios.Instance) (datasetId : string)
    (dim : Dimension.t) (log : list Axios.Request) :
  ONSDatasetService.dimensionDetail client datasetId dim log =
  (inr (match client Axios.SOptions (optionsRequest datasetId (Dimension.id dim)) with
        | Axios.Resolved options =>
            ONSDatasetService.mkDimensionDetail
              (Dimension.id dim) (Dimension.name dim) (Dimension.label dim)
              (ONSApiClient.default (DimensionOptions.items options) []) None
        | Axios.Rejected error =>
            ONSDatasetService.mkDimensionDetail
              (Dimension.id dim) (Dimension.name dim) (Dimension.label dim)
              [] (Some (Js.message (ONSApiClient.onRejected error)))
        end),
   (log ++ [optionsRequest datasetId (Dimension.id dim)])%list).
Proof.
  unfold ONSDatasetService.dimensionDetail, ONSApiClient.getDimensionOptions,
    try_catch, await.
  rewrite client_get_run. fold (optionsRequest datasetId (Dimension.id dim)).
  destruct (client Axios.SOptions (optionsRequest datasetId (Dimension.id dim)));
    reflexivity.
Qed.

(** The batch of per-dimension tasks never fails, yields one value per task
    in order, and issues one options request per dimension. *)
Lemma Promise_all_dimensionDetail (client : Axios.Instance) (datasetId : string)
    (dims : list Dimension.t) (log : list Axios.Request) :
  exists details,
    Promise_all (map (ONSDatasetService.dimensionDetail client datasetId) dims) log
    = (inr details,
       (log ++ map (fun dim => optionsRequest datasetId (Dimension.id dim)) dims)%list)
    /\ Forall2 (fun dim detail =>
                  ONSDatasetService.dimensionDetail client datasetId dim []
                  = (inr detail, [optionsRequest datasetId (Dimension.id dim)]))
         dims details.
Proof.
  revert log; induction dims as [|dim dims IH]; intros log; cbn [map Promise_all].
  - exists []. rewrite app_nil_r. split; [reflexivity | constructor].
  - rewrite dimensionDetail_run.
    destruct (IH (log ++ [optionsRequest datasetId (Dimension.id dim)])%list)
      as [details [Hrun Hall]].
    rewrite Hrun. eexists. split.
    + rewrite <- app_assoc. reflexivity.
    + constructor; [|exact Hall]. now rewrite dimensionDetail_run.
Qed.

(** C7: for every dataset, [getDatasetDimensions] returns exactly one entry
    per declared dimension, in order and with the dimension's id, name and
    label, whatever the options requests do: an entry whose options request
    failed has an empty options list and the failure's message, and the call
    as a whole succeeds. *)
Theorem getDatasetDimensions_one_entry_per_dimension :
  forall (client : Axios.Instance) (datasetId : string) (dataset : ONSDataset.t),
    client Axios.SDataset (datasetRequest datasetId) = Axios.Resolved dataset ->
    let declared :=
      match ONSDataset.dimensions dataset with
      | Some ds => ds
      | None => []
      end in
    exists result,
      outcome (ONSDatasetService.getDatasetDimensions client datasetId) = inr result
      /\ List.length (ONSDatasetService.dimensions result) = List.length declared
      /\ Forall2
           (fun dim entry =>
              ONSDatasetService.id entry = Dimension.id dim
              /\ ONSDatasetService.name entry = Dimension.name dim
              /\ ONSDatasetService.label entry = Dimension.label dim
              /\ (forall error,
                    client Axios.SOptions (optionsRequest datasetId (Dimension.id dim))
                    = Axios.Rejected error ->
                    ONSDatasetService.options entry = []
                    /\ ONSDatasetService.error entry
                       = Some (Js.message (ONSApiClient.onRejected error))))
           declared (ONSDatasetService.dimensions result).
Proof.
  intros client datasetId dataset Hds declared.
  unfold outcome, ONSDatasetService.getDatasetDimensions,
    ONSDatasetService.getDataset, ONSApiClient.getDataset, await.
  rewrite client_get_run. fold (datasetRequest datasetId). rewrite Hds.
  change (ONSApiClient.default (ONSDataset.dimensions dataset) []) with declared.
  destruct (Promise_all_dimensionDetail client datasetId declared
              ([] ++ [datasetRequest datasetId])%list) as [details [Hrun Hall]].
  rewrite Hrun. cbn [fst resolve]. eexists. split; [reflexivity|].
  cbn [ONSDatasetService.dimensions]. split.
  - symmetry. eapply Forall2_length, Hall.
  - revert Hall. apply Forall2_impl. intros dim entry H.
    rewrite dimensionDetail_run in H. injection H as H. subst entry.
    destruct (client Axios.SOptions (optionsRequest datasetId (Dimension.id dim)))
      as [options|error].
    + cbn. do 3 (split; [reflexivity|]). intros error' E. discriminate E.
    + cbn. do 3 (split; [reflexivity|]). intros error' E. now injection E as <-.
Qed.

(** C7, witness: every options request of the sample upstream fails, and
    [cpih01] still gets its three entries. *)
Lemma getDatasetDimensions_one_entry_per_dimension_witness :
  exists result,
    outcome (ONSDatasetService.getDatasetDimensions sampleClient "cpih01") = inr result
    /\ List.length (ONSDatasetService.dimensions result) = 3%nat.
Proof.
  destruct (getDatasetDimensions_one_entry_per_dimension sampleClient "cpih01"
              (dataset := cpih01) eq_refl) as [result [Hout [Hlen _]]].
  exists result. split; [exact Hout | exact Hlen].
Defined.

(* ================================================================== *)
(** ** The tool adapter *)

Section HandlerFacts.

Context {host : Js.Host}.
Variable ZodError_message : list ToolAdapter.ZodIssue -> string.
Variable client : Axios.Instance.

(** The [catch] clause seen from outside: only validation errors change. *)
Lemma handler_of_dispatch (name : string) (args : option (Js.Record Js.Json))
    (log : list Axios.Request) :
  ToolAdapter.handler ZodError_message client name args log =
  match ToolAdapter.dispatch client name args log with
  | (inl (ToolAdapter.ZodError issues), log') =>
      (inl (ToolAdapter.McpError ToolAdapter.InvalidParams
              ("Invalid parameters: " ++ ZodError_message issues)), log')
  | other => other
  end.
Proof.
  unfold ToolAdapter.handler, try_catch.
  destruct (ToolAdapter.dispatch client name args log) as [[[e|issues|code m]|out] log'];
    reflexivity.
Qed.

Lemma parse_await {A B : Type} (r : ToolAdapter.ParseResult A)
    (k : A -> Async ToolAdapter.Thrown B) (log : list Axios.Request) :
  await (ToolAdapter.parse r) k log =
  match r with
  | inr a => k a log
  | inl issues => (inl (ToolAdapter.ZodError issues), log)
  end.
Proof. destruct r; reflexivity. Qed.

Lemma service_await {A B : Type} (c : Async Js.Error A)
    (k : A -> Async ToolAdapter.Thrown B) (log : list Axios.Request) :
  await (ToolAdapter.service c) k log =
  match c log with
  | (inr a, log') => k a log'
  | (inl e, log') => (inl (ToolAdapter.ThrownError e), log')
  end.
Proof.
  unfold await, ToolAdapter.service, try_catch.
  destruct (c log) as [[e|a] log']; reflexivity.
Qed.

Lemma dispatch_invalid (name : string) (args : option (Js.Record Js.Json))
    (issues : list ToolAdapter.ZodIssue) (log : list Axios.Request) :
  validationIssues name args = Some issues ->
  ToolAdapter.dispatch client name args log = (inl (ToolAdapter.ZodError issues), log).
Proof.
  unfold validationIssues, ToolAdapter.dispatch.
  repeat match goal with
         | |- context [String.eqb name ?s] => destruct (String.eqb name s)
         end;
    try discriminate;
    rewrite parse_await;
    match goal with
    | |- issuesOf ?r = _ -> _ => destruct r; cbn [issuesOf]; congruence
    end.
Qed.

Lemma dispatch_unknown (name : string) (args : option (Js.Record Js.Json))
    (log : list Axios.Request) :
  ~ In name knownTools ->
  ToolAdapter.dispatch client name args log
  = (inl (ToolAdapter.McpError ToolAdapter.MethodNotFound ("Unknown tool: " ++ name)),
     log).
Proof.
  intros Hnot. unfold ToolAdapter.dispatch.
  repeat match goal with
         | |- context [String.eqb name ?s] =>
             destruct (String.eqb_spec name s) as [->|_];
             [exfalso; apply Hnot; cbn; tauto|]
         end.
  reflexivity.
Qed.

End HandlerFacts.

(** What [ThrownError] the handler ends with when the service call of a tool
    fails. *)
Lemma handler_service_failure {host : Js.Host} (ZodError_message : list ToolAdapter.ZodIssue -> string)
    (client : Axios.Instance) (name : string) (args : option (Js.Record Js.Json))
    {A : Type} (c : Async Js.Error A) (k : A -> Async ToolAdapter.Thrown ToolAdapter.ToolOutput)
    (e : Js.Error) :
  ToolAdapter.dispatch client name args [] = await (ToolAdapter.service c) k [] ->
  outcome c = inl e ->
  outcome (ToolAdapter.handler ZodError_message client name args)
  = inl (ToolAdapter.ThrownError e).
Proof.
  unfold outcome. intros Hdispatch Hc.
  rewrite handler_of_dispatch, Hdispatch, service_await.
  destruct (c []) as [[e'|a] log']; cbn [fst] in Hc; [|discriminate].
  injection Hc as ->. reflexivity.
Qed.

(** C8: for every tool call, a violation of the tool's argument schema makes
    the handler fail with an invalid-parameters error whose message renders
    the violations; a name outside the five tools makes it fail with a
    method-not-found error naming the tool; every other failure of the
    dispatch leaves the handler as it is, and in particular a failure of the
    service call of any of the five tools reaches the caller unchanged. *)
Theorem handler_failures {host : Js.Host} :
  forall (ZodError_message : list ToolAdapter.ZodIssue -> string)
         (client : Axios.Instance) (name : string)
         (args : option (Js.Record Js.Json)),
    (forall issues,
        validationIssues name args = Some issues ->
        outcome (ToolAdapter.handler ZodError_message client name args)
        = inl (ToolAdapter.McpError ToolAdapter.InvalidParams
                 ("Invalid parameters: " ++ ZodError_message issues)))
    /\ (~ In name knownTools ->
        outcome (ToolAdapter.handler ZodError_message client name args)
        = inl (ToolAdapter.McpError ToolAdapter.MethodNotFound
                 ("Unknown tool: " ++ name)))
    /\ (forall failure,
          outcome (ToolAdapter.dispatch client name args) = inl failure ->
          (forall issues, failure <> ToolAdapter.ZodError issues) ->
          outcome (ToolAdapter.handler ZodError_message client name args) = inl failure)
    /\ (forall limit offset e,
          ToolAdapter.ListDatasetsArgsSchema args = inr (limit, offset) ->
          outcome (ONSDatasetService.listDatasets client
                     (ONSDatasetService.mkDatasetListOptions limit offset)) = inl e ->
          outcome (ToolAdapter.handler ZodError_message client "list_datasets" args)
          = inl (ToolAdapter.ThrownError e))
    /\ (forall dataset_id e,
          ToolAdapter.GetDatasetArgsSchema args = inr dataset_id ->
          outcome (ONSDatasetService.getDataset client dataset_id) = inl e ->
          outcome (ToolAdapter.handler ZodError_message client "get_dataset" args)
          = inl (ToolAdapter.ThrownError e))
    /\ (forall query limit e,
          ToolAdapter.SearchDatasetsArgsSchema args = inr (query, limit) ->
          outcome (ONSDatasetService.searchDatasets client query (Some limit)) = inl e ->
          outcome (ToolAdapter.handler ZodError_message client "search_datasets" args)
          = inl (ToolAdapter.ThrownError e))
    /\ (forall dataset_id edition version dimensions e,
          ToolAdapter.GetObservationArgsSchema args
          = inr (dataset_id, (edition, (version, dimensions))) ->
          outcome (ONSDatasetService.getObservations client dataset_id
                     (Some edition) (Some version) dimensions) = inl e ->
          outcome (ToolAdapter.handler ZodError_message client "get_observation" args)
          = inl (ToolAdapter.ThrownError e))
    /\ (forall dataset_id geography time_period e,
          ToolAdapter.GetLatestDataArgsSchema args
          = inr (dataset_id, (geography, time_period)) ->
          outcome (ONSDatasetService.getLatestData client dataset_id
                     geography time_period) = inl e ->
          outcome (ToolAdapter.handler ZodError_message client "get_latest_data" args)
          = inl (ToolAdapter.ThrownError e)).
Proof.
  intros ZodError_message client name args.
  split; [|split; [|split; [|split; [|split; [|split; [|split]]]]]].
  - intros issues H. unfold outcome.
    now rewrite handler_of_dispatch, (dispatch_invalid client name args [] H).
  - intros H. unfold outcome.
    now rewrite handler_of_dispatch, (dispatch_unknown client args [] H).
  - unfold outcome. intros failure H Hnot. rewrite handler_of_dispatch.
    destruct (ToolAdapter.dispatch client name args []) as [[e|out] log'];
      cbn [fst] in H; [|discriminate].
    injection H as ->. destruct failure as [e|issues|code m]; try reflexivity.
    now destruct (Hnot issues).
  - intros limit offset e Hargs.
    apply handler_service_failure with
      (k := fun datasets =>
              resolve (ToolAdapter.ListDatasetsOutput (ONSDatasetList.items datasets)
                         (ONSDatasetList.total_count datasets) limit offset)).
    unfold ToolAdapter.dispatch. cbn [String.eqb Ascii.eqb Bool.eqb].
    rewrite parse_await, Hargs. reflexivity.
  - intros dataset_id e Hargs.
    apply handler_service_failure with
      (k := fun dataset => resolve (ToolAdapter.GetDatasetOutput dataset)).
    unfold ToolAdapter.dispatch. cbn [String.eqb Ascii.eqb Bool.eqb].
    rewrite parse_await, Hargs. reflexivity.
  - intros query limit e Hargs.
    apply handler_service_failure with
      (k := fun results =>
              resolve (ToolAdapter.SearchDatasetsOutput query
                         (ONSDatasetList.items results)
                         (ONSDatasetList.total_count results))).
    unfold ToolAdapter.dispatch. cbn [String.eqb Ascii.eqb Bool.eqb].
    rewrite parse_await, Hargs. reflexivity.
  - intros dataset_id edition version dimensions e Hargs.
    apply handler_service_failure with
      (k := fun observations => resolve (ToolAdapter.GetObservationOutput observations)).
    unfold ToolAdapter.dispatch. cbn [String.eqb Ascii.eqb Bool.eqb].
    rewrite parse_await, Hargs. reflexivity.
  - intros dataset_id geography time_period e Hargs.
    apply handler_service_failure with
      (k := fun data => resolve (ToolAdapter.GetLatestDataOutput data)).
    unfold ToolAdapter.dispatch. cbn [String.eqb Ascii.eqb Bool.eqb].
    rewrite parse_await, Hargs. reflexivity.
Qed.

(** C8, witness: [get_dataset] called without its [dataset_id]. *)
Lemma handler_failures_witness :
  outcome (ToolAdapter.handler sampleZodMessage sampleClient "get_dataset" (Some []))
  = inl (ToolAdapter.McpError ToolAdapter.InvalidParams
           "Invalid parameters: dataset_id: Required").
Proof.
  destruct (handler_failures sampleZodMessage sampleClient "get_dataset" (Some []))
    as [Hinvalid _].
  apply (Hinvalid [ToolAdapter.invalid_type "string" None ["dataset_id"]]).
  reflexivity.
Defined.

(* ================================================================== *)
(** ** Further properties of the API client *)

Lemma onRejected_labelled (error : Axios.Error) :
  labelled (ONSApiClient.onRejected error).
Proof.
  unfold labelled, ONSApiClient.onRejected.
  destruct (Axios.response error) as [response|]; [|eexists; reflexivity].
  destruct (Axios.status response =? 404); [eexists; reflexivity|].
  destruct (Axios.status response =? 400); [eexists; reflexivity|].
  destruct (Axios.status response =? 429); [eexists; reflexivity|].
  destruct (Axios.status response =? 500); eexists; reflexivity.
Qed.

Lemma client_get_labelled (client : Axios.Instance) (s : Axios.Shape)
    (url : string) (params : list (string * Z)) (e : Js.Error) :
  outcome (ONSApiClient.client_get client s url params) = inl e -> labelled e.
Proof.
  unfold outcome. rewrite client_get_run. cbn [fst].
  destruct (client s _); [discriminate|].
  intros H. injection H as <-. apply onRejected_labelled.
Qed.

(** X1: every failure of the API client methods that hand the upstream
    payload on unread ([listDatasets], [getDataset], [getLatestVersion],
    [getObservations], [getDimensionOptions]), whatever the upstream did, has
    a message that starts with the label [ONS API: ]. *)
Theorem api_client_failures_are_labelled :
  forall (client : Axios.Instance) (e : Js.Error),
    (forall limit offset,
        outcome (ONSApiClient.listDatasets client limit offset) = inl e -> labelled e)
    /\ (forall datasetId,
          outcome (ONSApiClient.getDataset client datasetId) = inl e -> labelled e)
    /\ (forall datasetId edition,
          outcome (ONSApiClient.getLatestVersion client datasetId edition) = inl e ->
          labelled e)
    /\ (forall datasetId edition version dimensions,
          outcome (ONSApiClient.getObservations client datasetId edition version
                     dimensions) = inl e ->
          labelled e)
    /\ (forall datasetId dimensionId,
          outcome (ONSApiClient.getDimensionOptions client datasetId dimensionId) = inl e ->
          labelled e).
Proof.
  intros client e. repeat split; intros.
  - unfold ONSApiClient.listDatasets in H.
    exact (@client_get_labelled client Axios.SDatasetList _ _ e H).
  - unfold ONSApiClient.getDataset in H.
    exact (@client_get_labelled client Axios.SDataset _ _ e H).
  - unfold ONSApiClient.getLatestVersion in H.
    exact (@client_get_labelled client Axios.SAny _ _ e H).
  - unfold ONSApiClient.getObservations in H.
    exact (@client_get_labelled client Axios.SObservations _ _ e H).
  - unfold ONSApiClient.getDimensionOptions in H.
    exact (@client_get_labelled client Axios.SOptions _ _ e H).
Qed.

(** X1, witness: [getDataset] against the upstream that is down. *)
Lemma api_client_failures_are_labelled_witness :
  exists e,
    outcome (ONSApiClient.getDataset downClient "cpih01") = inl e
    /\ labelled e.
Proof.
  exists (Js.mkError "ONS API: HTTP 503 - Request failed with status code 503").
  split; [reflexivity|].
  destruct (api_client_failures_are_labelled downClient
              (Js.mkError "ONS API: HTTP 503 - Request failed with status code 503"))
    as [_ [Hget _]].
  apply (Hget "cpih01"). reflexivity.
Defined.

(** X2: a dimension value is not escaped, so a value that contains [&] and
    [=] is read by the upstream as further filters: the filter
    [{k: v1 + '&' + k2 + '=' + v2}] and the filter [{k: v1, k2: v2}] give
    the same request. *)
Theorem getObservations_value_can_add_filters :
  forall (client : Axios.Instance) (datasetId : string)
         (edition version : option string) (k v1 k2 v2 : string)
         (rest : Js.Record string),
    requests (ONSApiClient.getObservations client datasetId edition version
                ((k, v1 ++ "&" ++ k2 ++ "=" ++ v2) :: rest))
    = requests (ONSApiClient.getObservations client datasetId edition version
                  ((k, v1) :: (k2, v2) :: rest)).
Proof.
  intros. unfold requests, ONSApiClient.getObservations. rewrite !client_get_run.
  cbn [snd]. do 2 f_equal. unfold ONSApiClient.observationsUrl. do 6 f_equal.
  unfold Js.join, Js.entries. cbn [map concat].
  destruct rest as [|[k3 v3] rest]; cbn [map concat];
    now rewrite ?append_assoc.
Qed.

Lemma includes_empty (s : string) : Js.includes s EmptyString = true.
Proof. destruct s; reflexivity. Qed.

Lemma filter_all {A : Type} (f : A -> bool) (l : list A) :
  (forall x, f x = true) -> filter f l = l.
Proof.
  intros H. induction l as [|x l IH]; cbn [filter]; [reflexivity|].
  now rewrite H, IH.
Qed.

Lemma slice0_nonneg {A : Type} (l : list A) (end_ : Z) :
  0 <= end_ -> Js.slice0 l end_ = firstn (Z.to_nat end_) l.
Proof.
  intros H. unfold Js.slice0.
  destruct (end_ <? 0) eqn:E; [apply Z.ltb_lt in E; lia|].
  destruct (Z.le_ge_cases end_ (Z.of_nat (List.length l))) as [Hle|Hge].
  - now rewrite Z.min_l.
  - rewrite Z.min_r, Nat2Z.id, firstn_all by assumption.
    symmetry. apply firstn_all2. lia.
Qed.

Lemma slice0_all {A : Type} (l : list A) (end_ : Z) :
  Z.of_nat (List.length l) <= end_ -> Js.slice0 l end_ = l.
Proof.
  intros H. rewrite slice0_nonneg by lia. apply firstn_all2. lia.
Qed.


(** X3: the empty query matches every dataset: for a non-negative limit
    [searchDatasets] returns the first [limit] datasets of the listing page,
    unfiltered. *)
Theorem searchDatasets_empty_query {host : Js.Host} :
  forall (client : Axios.Instance) (limit : Z) (listing : ONSDatasetList.t),
    0 <= limit ->
    client Axios.SDatasetList searchListingRequest = Axios.Resolved listing ->
    exists result,
      outcome (ONSApiClient.searchDatasets client EmptyString (Some limit)) = inr result
      /\ ONSDatasetList.items result
         = firstn (Z.to_nat limit) (ONSDatasetList.items listing).
Proof.
  intros client limit listing Hlimit Hlisting. unfold outcome.
  rewrite (searchDatasets_run client EmptyString (Some limit) [] Hlisting).
  cbn [fst ONSApiClient.default]. eexists. split; [reflexivity|].
  cbn [ONSDatasetList.items]. rewrite filter_all.
  - now apply slice0_nonneg.
  - intros d. unfold ONSApiClient.matches.
    now rewrite Js.toLowerCase_empty, includes_empty.
Qed.

(** X3, witness: the sample upstream, limit 2. *)
Lemma searchDatasets_empty_query_witness :
  exists result,
    outcome (ONSApiClient.searchDatasets sampleClient EmptyString (Some 2)) = inr result
    /\ ONSDatasetList.items result = [cpih01; trade].
Proof.
  apply (searchDatasets_empty_query sampleClient (limit := 2) (listing := sampleListing)).
  - lia.
  - reflexivity.
Defined.

(** X4: when the limit is at least the size of the listing page, the search
    is complete on that page: every dataset of the page whose title,
    description or id contains the query case-insensitively is returned. *)
Theorem searchDatasets_complete_on_page {host : Js.Host} :
  forall (client : Axios.Instance) (query : string) (limit : Z)
         (listing : ONSDatasetList.t),
    Z.of_nat (List.length (ONSDatasetList.items listing)) <= limit ->
    client Axios.SDatasetList searchListingRequest = Axios.Resolved listing ->
    exists result,
      outcome (ONSApiClient.searchDatasets client query (Some limit)) = inr result
      /\ (forall d,
            In d (ONSDatasetList.items listing) ->
            contains_ci (ONSDataset.title d) query
            \/ contains_ci (ONSDataset.description d) query
            \/ contains_ci (ONSDataset.id d) query ->
            In d (ONSDatasetList.items result)).
Proof.
  intros client query limit listing Hlimit Hlisting. unfold outcome.
  rewrite (searchDatasets_run client query (Some limit) [] Hlisting).
  cbn [fst ONSApiClient.default]. eexists. split; [reflexivity|].
  cbn [ONSDatasetList.items]. intros d Hin Hmatch.
  rewrite slice0_all.
  - apply filter_In. split; [exact Hin | now apply matches_iff].
  - pose proof (filter_length_le (ONSApiClient.matches (Js.toLowerCase query))
                  (ONSDatasetList.items listing)). lia.
Qed.

(** X4, witness: [trade] mentions CPIH in its description only. *)
Lemma searchDatasets_complete_on_page_witness :
  exists result,
    outcome (ONSApiClient.searchDatasets sampleClient "cpih" (Some 3)) = inr result
    /\ In trade (ONSDatasetList.items result).
Proof.
  destruct (searchDatasets_complete_on_page sampleClient "cpih" (limit := 3)
              (listing := sampleListing)) as [result [Hout Hall]].
  - cbn. lia.
  - reflexivity.
  - exists result. split; [exact Hout|]. apply Hall.
    + cbn. tauto.
    + right; left. apply includes_iff. reflexivity.
Defined.



Lemma getDownloadUrl_run (client : Axios.Instance) (datasetId : string)
    (edition : option string) (log : list Axios.Request) :
  let request :=
    latestVersionRequest datasetId (ONSApiClient.default edition "time-series") in
  ONSApiClient.getDownloadUrl client datasetId edition log =
  (match client Axios.SAny request with
   | Axios.Resolved Js.JNull =>
       inl (Js.mkError "Cannot read properties of null (reading 'downloads')")
   | Axios.Resolved latestVersion =>
       inr (match Js.opt_prop (Js.opt_prop (Js.prop latestVersion "downloads") "csv")
                    "href" with
            | Some v => if Js.truthy_json v then v else Js.JStr EmptyString
            | None => Js.JStr EmptyString
            end)
   | Axios.Rejected error => inl (ONSApiClient.onRejected error)
   end, (log ++ [request])%list).
Proof.
  intros request.
  unfold ONSApiClient.getDownloadUrl, ONSApiClient.getLatestVersion, await.
  cbn [ONSApiClient.default]. rewrite client_get_run.
  fold (latestVersionRequest datasetId (ONSApiClient.default edition "time-series")).
  fold request.
  destruct (client Axios.SAny request) as [[ | | | | | ]|]; reflexivity.
Qed.

(** X6: [getDownloadUrl] asks for the latest version once.  On a payload
    other than [null] it never fails and never returns a falsy value other
    than the empty string: it returns the CSV link of the payload when
    [downloads.csv.href] is a non-empty string, and the empty string when the
    payload has no [downloads]; on a [null] payload it fails. *)
Theorem getDownloadUrl_link_or_empty :
  forall (client : Axios.Instance) (datasetId : string) (edition : option string)
         (latestVersion : Js.Json),
    client Axios.SAny
      (latestVersionRequest datasetId (ONSApiClient.default edition "time-series"))
    = Axios.Resolved latestVersion ->
    let call := ONSApiClient.getDownloadUrl client datasetId edition in
    requests call
    = [latestVersionRequest datasetId (ONSApiClient.default edition "time-series")]
    /\ (latestVersion = Js.JNull -> exists e, outcome call = inl e)
    /\ (latestVersion <> Js.JNull ->
        exists url, outcome call = inr url
                    /\ (url = Js.JStr EmptyString \/ Js.truthy_json url = true))
    /\ (forall fields downloads csv href,
          latestVersion = Js.JObj fields ->
          Js.get fields "downloads" = Some (Js.JObj downloads) ->
          Js.get downloads "csv" = Some (Js.JObj csv) ->
          Js.get csv "href" = Some (Js.JStr href) ->
          href <> EmptyString ->
          outcome call = inr (Js.JStr href))
    /\ (forall fields,
          latestVersion = Js.JObj fields ->
          Js.get fields "downloads" = None ->
          outcome call = inr (Js.JStr EmptyString)).
Proof.
  intros client datasetId edition latestVersion Hlatest call.
  subst call. unfold requests, outcome. rewrite getDownloadUrl_run. cbv zeta.
  rewrite Hlatest. cbn [fst snd app].
  split; [reflexivity|]. split; [|split; [|split]].
  - intros ->. eexists. reflexivity.
  - intros Hnull.
    set (href := Js.opt_prop (Js.opt_prop (Js.prop latestVersion "downloads") "csv") "href").
    exists (match href with
            | Some v => if Js.truthy_json v then v else Js.JStr EmptyString
            | None => Js.JStr EmptyString
            end).
    split.
    + destruct latestVersion; try reflexivity. congruence.
    + destruct href as [v|]; [|now left].
      destruct (Js.truthy_json v) eqn:E; [now right | now left].
  - intros fields downloads csv href -> Hd Hc Hh Hne.
    cbn [Js.prop Js.opt_prop]. rewrite Hd. cbn [Js.prop Js.opt_prop]. rewrite Hc.
    cbn [Js.prop Js.opt_prop]. rewrite Hh. cbn [Js.truthy_json].
    apply truthy_iff in Hne. now rewrite Hne.
  - intros fields -> Hd. cbn [Js.prop Js.opt_prop]. rewrite Hd. reflexivity.
Qed.

(** X6, witness: an upstream whose latest version has a CSV download. *)
Lemma getDownloadUrl_link_or_empty_witness :
  outcome (ONSApiClient.getDownloadUrl twoDatasetClient "cpih01" None)
  = inr (Js.JStr "https://x/y.csv").
Proof.
  destruct (getDownloadUrl_link_or_empty twoDatasetClient "cpih01" None
              (latestVersion :=
                 Js.JObj [("downloads",
                           Js.JObj [("csv", Js.JObj [("href", Js.JStr "https://x/y.csv")])])])
              eq_refl) as [_ [_ [_ [Hlink _]]]].
  eapply Hlink; try reflexivity. discriminate.
Defined.

(** X7: the health check never fails, whatever the upstream does: it issues
    the one-item listing request and reports [healthy] exactly when that
    request resolved, [unhealthy] otherwise, with [api_accessible] saying the
    same. *)
Theorem healthCheck_never_fails :
  forall client : Axios.Instance,
    exists accessible : bool,
      outcome (ONSDatasetService.healthCheck client)
      = inr (ONSDatasetService.mkHealth
               (if accessible then "healthy" else "unhealthy") accessible)
      /\ requests (ONSDatasetService.healthCheck client) = [healthRequest]
      /\ (accessible = true <->
          exists data, client Axios.SAny healthRequest = Axios.Resolved data).
Proof.
  intros client.
  unfold outcome, requests, ONSDatasetService.healthCheck, ONSApiClient.healthCheck,
    await, try_catch.
  rewrite client_get_run. fold healthRequest.
  destruct (client Axios.SAny healthRequest) as [data|error].
  - exists true. cbn. repeat split; eauto.
  - exists false. cbn. repeat split; [discriminate | intros [data H]; discriminate].
Qed.

(* ================================================================== *)
(** ** Further properties of the dataset service *)

Lemma getPopularDatasets_loop_run (client : Axios.Instance) (ids : list string)
    (datasets : list ONSDataset.t) (log : list Axios.Request) :
  ONSDatasetService.getPopularDatasets_loop client ids datasets log =
  (inr (datasets ++ servedDatasets client ids)%list,
   (log ++ map datasetRequest ids)%list).
Proof.
  revert datasets log; induction ids as [|id ids IH]; intros datasets log.
  - cbn. now rewrite !app_nil_r.
  - cbn [ONSDatasetService.getPopularDatasets_loop]. unfold await, try_catch.
    unfold ONSDatasetService.getDataset, ONSApiClient.getDataset.
    rewrite client_get_run. fold (datasetRequest id).
    unfold servedDatasets. cbn [flat_map map]. fold (servedDatasets client ids).
    destruct (client Axios.SDataset (datasetRequest id)) as [dataset|error];
      cbn [resolve]; rewrite IH, <- !app_assoc; reflexivity.
Qed.

(** X8: [getPopularDatasets] never fails, whatever the upstream does: it
    requests each of the ten popular identifiers once, in order, and returns
    the datasets of those requests that resolved, in that order, skipping
    the others; so it returns at most ten datasets. *)
Theorem getPopularDatasets_partial_list :
  forall client : Axios.Instance,
    outcome (ONSDatasetService.getPopularDatasets client)
    = inr (servedDatasets client ONSApiClient.getPopularDatasets)
    /\ requests (ONSDatasetService.getPopularDatasets client)
       = map datasetRequest ONSApiClient.getPopularDatasets
    /\ (List.length (servedDatasets client ONSApiClient.getPopularDatasets) <= 10)%nat.
Proof.
  intros client.
  unfold outcome, requests, ONSDatasetService.getPopularDatasets.
  rewrite getPopularDatasets_loop_run.
  change (Js.slice0 ONSApiClient.getPopularDatasets 10)
    with ONSApiClient.getPopularDatasets.
  cbn [fst snd app]. repeat split.
  unfold servedDatasets, ONSApiClient.getPopularDatasets. cbn [flat_map].
  repeat match goal with
         | |- context [client Axios.SDataset ?r] => destruct (client Axios.SDataset r)
         end;
    cbn [app List.length]; lia.
Qed.

Lemma getObservations_run (client : Axios.Instance) (datasetId edition version : string)
    (dimensions : Js.Record string) (log : list Axios.Request) :
  ONSDatasetService.getObservations client datasetId (Some edition) (Some version)
    dimensions log =
  (match client Axios.SObservations
           (observationsRequest datasetId edition version dimensions) with
   | Axios.Resolved observations => inr observations
   | Axios.Rejected error => inl (ONSApiClient.onRejected error)
   end,
   (log ++ [observationsRequest datasetId edition version dimensions])%list).
Proof.
  unfold ONSDatasetService.getObservations, ONSApiClient.getObservations.
  cbn [ONSApiClient.default]. now rewrite client_get_run.
Qed.

(** X9: [getRegionalData] always filters geography to the wildcard and adds
    the time period only when it is a non-empty string; it returns the
    observations in the order the upstream gave them, and a failure of the
    request reaches the caller as the client raised it, without added
    context. *)
Theorem getRegionalData_filter_and_order :
  forall (client : Axios.Instance) (datasetId : string) (timePeriod : option string),
    let dimensions :=
      ("geography", "*")
        :: match timePeriod with
           | Some t => if String.eqb t EmptyString then [] else [("time", t)]
           | None => []
           end in
    let request := observationsRequest datasetId "time-series" "latest" dimensions in
    requests (ONSDatasetService.getRegionalData client datasetId timePeriod) = [request]
    /\ (forall observations,
          client Axios.SObservations request = Axios.Resolved observations ->
          outcome (ONSDatasetService.getRegionalData client datasetId timePeriod)
          = inr (ONSDatasetService.mkRegionalData datasetId timePeriod
                   (ONSObservationResponse.observations observations)
                   (ONSObservationResponse.total_observations observations)))
    /\ (forall error,
          client Axios.SObservations request = Axios.Rejected error ->
          outcome (ONSDatasetService.getRegionalData client datasetId timePeriod)
          = inl (ONSApiClient.onRejected error)).
Proof.
  intros client datasetId timePeriod dimensions request.
  assert (Hdims :
            match timePeriod with
            | Some t =>
                if Js.truthy t then Js.set [("geography", "*")] "time" t
                else [("geography", "*")]
            | None => [("geography", "*")]
            end = dimensions).
  { subst dimensions. destruct timePeriod as [t|]; [|reflexivity].
    unfold Js.truthy. now destruct (String.eqb t EmptyString). }
  unfold requests, outcome, ONSDatasetService.getRegionalData, await.
  rewrite Hdims, getObservations_run. fold request.
  split; [|split].
  - now destruct (client Axios.SObservations request).
  - intros observations H. now rewrite H.
  - intros error H. now rewrite H.
Qed.

(** X9, witness: a regional comparison for 2023 on the sample upstream. *)
Lemma getRegionalData_filter_and_order_witness :
  outcome (ONSDatasetService.getRegionalData sampleClient "cpih01" (Some "2023"))
  = inr (ONSDatasetService.mkRegionalData "cpih01" (Some "2023")
           [sampleObservation "Mar-24" "1.0"; sampleObservation "apr-24" "2.0"] 2).
Proof.
  destruct (getRegionalData_filter_and_order sampleClient "cpih01" (Some "2023"))
    as [_ [Hok _]].
  apply (Hok sampleObservations). reflexivity.
Defined.

(** X10: every failure of [getLatestData] carries the dataset identifier:
    when the dataset request is rejected the call fails with
    [Failed to get latest data for <id>: <client message>] and no
    observations request is issued; when the observations request is
    rejected it fails with the same wrapping after both requests. *)
Theorem getLatestData_failure_names_dataset :
  forall (client : Axios.Instance) (datasetId : string)
         (geography timePeriod : option string),
    let call := ONSDatasetService.getLatestData client datasetId geography timePeriod in
    (forall error,
        client Axios.SDataset (datasetRequest datasetId) = Axios.Rejected error ->
        outcome call
        = inl (Js.mkError ("Failed to get latest data for " ++ datasetId ++ ": "
                             ++ Js.message (ONSApiClient.onRejected error)))
        /\ requests call = [datasetRequest datasetId])
    /\ (forall dataset error,
          client Axios.SDataset (datasetRequest datasetId) = Axios.Resolved dataset ->
          client Axios.SObservations
            (observationsRequest datasetId "time-series" "latest"
               (ONSDatasetService.getLatestData_dimensions dataset geography timePeriod))
          = Axios.Rejected error ->
          outcome call
          = inl (Js.mkError ("Failed to get latest data for " ++ datasetId ++ ": "
                               ++ Js.message (ONSApiClient.onRejected error)))
          /\ List.length (requests call) = 2%nat).
Proof.
  intros client datasetId geography timePeriod call. subst call. split.
  - intros error H.
    unfold outcome, requests, ONSDatasetService.getLatestData,
      ONSDatasetService.getDataset, ONSApiClient.getDataset, try_catch, await.
    rewrite client_get_run. fold (datasetRequest datasetId). rewrite H.
    split; reflexivity.
  - intros dataset error Hds Hobs. unfold outcome, requests.
    rewrite (getLatestData_run client datasetId geography timePeriod [] Hds).
    cbv zeta. rewrite Hobs. split; reflexivity.
Qed.

(** X10, witness: the upstream is down. *)
Lemma getLatestData_failure_names_dataset_witness :
  outcome (ONSDatasetService.getLatestData downClient "cpih01" None None)
  = inl (Js.mkError
           "Failed to get latest data for cpih01: ONS API: HTTP 503 - Request failed with status code 503")
  /\ requests (ONSDatasetService.getLatestData downClient "cpih01" None None)
     = [datasetRequest "cpih01"].
Proof.
  destruct (getLatestData_failure_names_dataset downClient "cpih01" None None)
    as [Hfirst _].
  apply (Hfirst unavailable). reflexivity.
Defined.

Lemma sort_sorted_input {A : Type} (compareFn : A -> A -> Z) (l : list A) :
  LocallySorted (sorts_before compareFn) l -> Js.sort compareFn l = l.
Proof.
  induction 1 as [|y|y z l Hl IH Hyz]; [reflexivity | reflexivity |].
  cbn [Js.sort] in *. rewrite IH. cbn [Js.sort_insert].
  apply Z.leb_le in Hyz. now rewrite Hyz.
Qed.

Lemma adjacent_LocallySorted {A : Type} (R : A -> A -> Prop) (l : list A) :
  (forall i a b, nth_error l i = Some a -> nth_error l (S i) = Some b -> R a b) ->
  LocallySorted R l.
Proof.
  induction l as [|x [|y l] IH]; intros H; constructor.
  - apply IH. intros i a b Ha Hb. exact (H (S i) a b Ha Hb).
  - exact (H 0%nat x y eq_refl eq_refl).
Qed.

(** X11: a response whose observations already are in the order of
    [localeCompare] on their time values, adjacent pair by adjacent pair, is
    returned by [getTimeSeriesData] as it is: same observations, same order
    (observations with equal time values keep the upstream order). *)
Theorem getTimeSeriesData_keeps_ordered_response :
  forall (localeCompare : string -> string -> Z) (client : Axios.Instance)
         (datasetId : string) (geography : option string)
         (observations : ONSObservationResponse.t),
    client Axios.SObservations
      (observationsRequest datasetId "time-series" "latest"
         (timeSeriesDimensions geography))
    = Axios.Resolved observations ->
    nondecreasing (collation_le localeCompare)
      (ONSObservationResponse.observations observations) ->
    outcome (ONSDatasetService.getTimeSeriesData localeCompare client datasetId geography)
    = inr (ONSDatasetService.mkTimeSeries datasetId
             (ONSApiClient.default geography "K02000001")
             (ONSObservationResponse.observations observations)
             (ONSObservationResponse.total_observations observations)).
Proof.
  intros localeCompare client datasetId geography observations Hobs Hsorted.
  unfold outcome. rewrite getTimeSeriesData_run. cbv zeta. rewrite Hobs. cbn [fst].
  rewrite sort_sorted_input; [reflexivity|].
  apply adjacent_LocallySorted. exact Hsorted.
Qed.

(** X11, witness: two observations of the same period keep their order. *)
Lemma getTimeSeriesData_keeps_ordered_response_witness :
  outcome (ONSDatasetService.getTimeSeriesData Collation.localeCompare tiedClient
             "cpih01" None)
  = inr (ONSDatasetService.mkTimeSeries "cpih01" "K02000001"
           [sampleObservation "2023" "first"; sampleObservation "2023" "second"] 2).
Proof.
  apply (getTimeSeriesData_keeps_ordered_response
           (localeCompare := Collation.localeCompare) tiedClient
           "cpih01" None (observations := tiedObservations)).
  - reflexivity.
  - intros [|[|i]] a b Ha Hb; cbn in Ha, Hb; try discriminate.
    injection Ha as <-. injection Hb as <-. unfold collation_le.
    vm_compute. discriminate.
Defined.

(** X12: [getTimeSeriesData] issues one observations request with the filter
    [{geography: given, time: '*'}]; the default geography replaces an absent
    argument only, so an empty string is sent as it is; and a failure of the
    request reaches the caller as the client raised it, without added
    context. *)
Theorem getTimeSeriesData_request_and_failure :
  forall (localeCompare : string -> string -> Z) (client : Axios.Instance)
         (datasetId : string) (geography : option string),
    let given :=
      match geography with
      | Some g => g
      | None => "K02000001"
      end in
    let request :=
      Axios.mkRequest
        ("/datasets/" ++ datasetId
           ++ "/editions/time-series/versions/latest/observations?geography="
           ++ given ++ "&time=*") [] in
    requests (ONSDatasetService.getTimeSeriesData localeCompare client datasetId geography)
    = [request]
    /\ (forall error,
          client Axios.SObservations request = Axios.Rejected error ->
          outcome (ONSDatasetService.getTimeSeriesData localeCompare client datasetId
                     geography)
          = inl (ONSApiClient.onRejected error)).
Proof.
  intros localeCompare client datasetId geography given request.
  assert (Hreq : observationsRequest datasetId "time-series" "latest"
                   (timeSeriesDimensions geography) = request).
  { subst request given. unfold observationsRequest, ONSApiClient.observationsUrl,
      timeSeriesDimensions, Js.join, Js.entries.
    cbn [map concat ONSApiClient.default]. reflexivity. }
  unfold requests, outcome. rewrite getTimeSeriesData_run. cbv zeta. rewrite Hreq.
  split.
  - reflexivity.
  - intros error H. now rewrite H.
Qed.

(** X12, witness: an empty geography against the upstream that is down. *)
Lemma getTimeSeriesData_request_and_failure_witness :
  outcome (ONSDatasetService.getTimeSeriesData Collation.localeCompare downClient
             "cpih01" (Some EmptyString))
  = inl (Js.mkError "ONS API: HTTP 503 - Request failed with status code 503").
Proof.
  destruct (getTimeSeriesData_request_and_failure Collation.localeCompare downClient
              "cpih01" (Some EmptyString)) as [_ Hfail].
  apply (Hfail unavailable). reflexivity.
Defined.

(** X13: when the dataset request of [getDatasetDimensions] is rejected,
    the call fails with the client's error and asks for no options; when it
    resolves with a dataset, the call succeeds, whatever the options requests
    do, having asked for the options of each declared dimension once, in
    order, after the dataset request. *)
Theorem getDatasetDimensions_requests :
  forall (client : Axios.Instance) (datasetId : string),
    let call := ONSDatasetService.getDatasetDimensions client datasetId in
    (forall error,
        client Axios.SDataset (datasetRequest datasetId) = Axios.Rejected error ->
        outcome call = inl (ONSApiClient.onRejected error)
        /\ requests call = [datasetRequest datasetId])
    /\ (forall dataset,
          client Axios.SDataset (datasetRequest datasetId) = Axios.Resolved dataset ->
          (exists result,
              outcome call = inr result
              /\ ONSDatasetService.dd_dataset_id result = datasetId
              /\ ONSDatasetService.dd_dataset_title result = ONSDataset.title dataset)
          /\ requests call
             = datasetRequest datasetId
                 :: map (fun dim => optionsRequest datasetId (Dimension.id dim))
                      (match ONSDataset.dimensions dataset with
                       | Some ds => ds
                       | None => []
                       end)).
Proof.
  intros client datasetId call. subst call.
  unfold outcome, requests, ONSDatasetService.getDatasetDimensions,
    ONSDatasetService.getDataset, ONSApiClient.getDataset, await.
  rewrite client_get_run. fold (datasetRequest datasetId). split.
  - intros error H. rewrite H. split; reflexivity.
  - intros dataset H. rewrite H.
    destruct (Promise_all_dimensionDetail client datasetId
                (ONSApiClient.default (ONSDataset.dimensions dataset) [])
                ([] ++ [datasetRequest datasetId])%list) as [details [Hrun _]].
    rewrite Hrun. split; [|reflexivity].
    eexists. split; [reflexivity|]. split; reflexivity.
Qed.

(** X13, witness: [cpih01] declares three dimensions: four requests. *)
Lemma getDatasetDimensions_requests_witness :
  requests (ONSDatasetService.getDatasetDimensions sampleClient "cpih01")
  = [datasetRequest "cpih01"; optionsRequest "cpih01" "time";
     optionsRequest "cpih01" "geography"; optionsRequest "cpih01" "aggregate"].
Proof.
  destruct (getDatasetDimensions_requests sampleClient "cpih01") as [_ Hok].
  apply (Hok cpih01). reflexivity.
Defined.

(* ================================================================== *)
(** ** Further properties of the tool adapter *)

Lemma get_set_other {V : Type} (o : Js.Record V) (k k' : string) (v : V) :
  k <> k' -> Js.get (Js.set o k v) k' = Js.get o k'.
Proof.
  intros Hne. induction o as [|[k0 v0] o IH]; cbn [Js.set Js.get].
  - destruct (String.eqb_spec k k'); [contradiction | reflexivity].
  - destruct (String.eqb_spec k0 k) as [->|Hk]; cbn [Js.get].
    + destruct (String.eqb_spec k k'); [contradiction | reflexivity].
    + destruct (String.eqb_spec k0 k'); [reflexivity | exact IH].
Qed.

Lemma z_record_fields_round_trip (path : list string) (r : Js.Record string) :
  ToolAdapter.z_record_fields path (jsonOfRecord r) = inr r.
Proof.
  induction r as [|[k v] r IH]; cbn [jsonOfRecord map ToolAdapter.z_record_fields fst snd];
    [reflexivity|].
  fold (jsonOfRecord r). rewrite IH. reflexivity.
Qed.

Lemma jsonOfRecord_strings (r : Js.Record string) :
  filter (fun kv : string * Js.Json => negb (isString (snd kv))) (jsonOfRecord r) = [].
Proof.
  induction r as [|[k v] r IH]; [reflexivity | exact IH].
Qed.

Lemma z_record_fields_cases (path : list string) (fields : list (string * Js.Json)) :
  match ToolAdapter.z_record_fields path fields with
  | inr r => fields = jsonOfRecord r
  | inl issues =>
      issues <> []
      /\ map ToolAdapter.path issues
         = map (fun kv => (path ++ [fst kv])%list)
             (filter (fun kv => negb (isString (snd kv))) fields)
  end.
Proof.
  induction fields as [|[k v] fields IH]; cbn [ToolAdapter.z_record_fields];
    [reflexivity|].
  destruct (ToolAdapter.z_record_fields path fields) as [issues|r].
  - destruct IH as [Hne Hpaths].
    destruct v; simpl; rewrite ?Hpaths; split; try discriminate; try reflexivity.
    exact Hne.
  - subst fields.
    destruct v; simpl; rewrite ?jsonOfRecord_strings; try (split; [discriminate|]);
      reflexivity.
Qed.

(** X14: the [dimensions] schema accepts exactly the objects whose values
    are all strings and hands them on unchanged, keys in order; when it
    rejects an object it reports every property whose value is not a string,
    each with its own path, in order. *)
Theorem dimensions_schema_round_trip :
  forall (path : list string),
    (forall r : Js.Record string,
        ToolAdapter.z_record_string path (Some (Js.JObj (jsonOfRecord r))) = inr r)
    /\ (forall (fields : list (string * Js.Json)) (r : Js.Record string),
          ToolAdapter.z_record_string path (Some (Js.JObj fields)) = inr r ->
          fields = jsonOfRecord r)
    /\ (forall (fields : list (string * Js.Json)) (issues : list ToolAdapter.ZodIssue),
          ToolAdapter.z_record_string path (Some (Js.JObj fields)) = inl issues ->
          issues <> []
          /\ map ToolAdapter.path issues
             = map (fun kv => (path ++ [fst kv])%list)
                 (filter (fun kv => negb (isString (snd kv))) fields)).
Proof.
  intros path. split; [|split].
  - intros r. apply z_record_fields_round_trip.
  - intros fields r H. cbn [ToolAdapter.z_record_string] in H.
    pose proof (z_record_fields_cases path fields) as Hc. now rewrite H in Hc.
  - intros fields issues H. cbn [ToolAdapter.z_record_string] in H.
    pose proof (z_record_fields_cases path fields) as Hc. now rewrite H in Hc.
Qed.

(** X14, witness: two offending properties out of three. *)
Lemma dimensions_schema_round_trip_witness :
  exists issues,
    ToolAdapter.z_record_string ["dimensions"]
      (Some (Js.JObj [("time", Js.JNum 2023); ("geography", Js.JStr "K02000001");
                      ("aggregate", Js.JNull)]))
    = inl issues
    /\ map ToolAdapter.path issues = [["dimensions"; "time"]; ["dimensions"; "aggregate"]].
Proof.
  eexists. split; [reflexivity|].
  destruct (dimensions_schema_round_trip ["dimensions"]) as [_ [_ Hrej]].
  apply (Hrej [("time", Js.JNum 2023); ("geography", Js.JStr "K02000001");
               ("aggregate", Js.JNull)]
              _ eq_refl).
Defined.

Lemma handler_run {host : Js.Host} (ZodError_message : list ToolAdapter.ZodIssue -> string)
    (client : Axios.Instance) (name : string) (args : option (Js.Record Js.Json))
    {A : Type} (r : ToolAdapter.ParseResult A) (c : A -> Async Js.Error ToolAdapter.ToolOutput)
    (log : list Axios.Request) :
  (forall log',
      ToolAdapter.dispatch client name args log'
      = match r with
        | inr a =>
            match c a log' with
            | (inr out, log'') => (inr out, log'')
            | (inl e, log'') => (inl (ToolAdapter.ThrownError e), log'')
            end
        | inl issues => (inl (ToolAdapter.ZodError issues), log')
        end) ->
  ToolAdapter.handler ZodError_message client name args log
  = match r with
    | inr a =>
        match c a log with
        | (inr out, log') => (inr out, log')
        | (inl e, log') => (inl (ToolAdapter.ThrownError e), log')
        end
    | inl issues =>
        (inl (ToolAdapter.McpError ToolAdapter.InvalidParams
                ("Invalid parameters: " ++ ZodError_message issues)), log)
    end.
Proof.
  intros H. rewrite handler_of_dispatch, H.
  destruct r as [issues|a]; [reflexivity|].
  destruct (c a log) as [[e|out] log']; reflexivity.
Qed.

(** X15: validation comes before any request: when the arguments violate the
    tool's schema, or the tool is not one of the five, the handler fails
    without having issued an HTTP request. *)
Theorem handler_validates_before_requests {host : Js.Host} :
  forall (ZodError_message : list ToolAdapter.ZodIssue -> string)
         (client : Axios.Instance) (name : string)
         (args : option (Js.Record Js.Json)),
    (exists issues, validationIssues name args = Some issues) \/ ~ In name knownTools ->
    requests (ToolAdapter.handler ZodError_message client name args) = []
    /\ exists failure,
         outcome (ToolAdapter.handler ZodError_message client name args) = inl failure.
Proof.
  intros ZodError_message client name args [[issues H]|H]; unfold requests, outcome;
    rewrite handler_of_dispatch.
  - rewrite (dispatch_invalid client name args [] H).
    split; [reflexivity | eexists; reflexivity].
  - rewrite (dispatch_unknown client args [] H).
    split; [reflexivity | eexists; reflexivity].
Qed.

(** X15, witness: [get_observation] without [dimensions]. *)
Lemma handler_validates_before_requests_witness :
  requests (ToolAdapter.handler sampleZodMessage sampleClient "get_observation"
              (Some [("dataset_id", Js.JStr "cpih01")])) = [].
Proof.
  apply (@handler_validates_before_requests basicLatin sampleZodMessage sampleClient
           "get_observation" (Some [("dataset_id", Js.JStr "cpih01")])).
  left. eexists. reflexivity.
Defined.

(** X16: a tool call that carries no arguments object fails validation for
    each of the five tools, [list_datasets] included although all its
    properties are optional; with an empty object [list_datasets] passes
    validation. *)
Theorem handler_requires_arguments_object {host : Js.Host} :
  forall (ZodError_message : list ToolAdapter.ZodIssue -> string)
         (client : Axios.Instance) (name : string),
    In name knownTools ->
    outcome (ToolAdapter.handler ZodError_message client name None)
    = inl (ToolAdapter.McpError ToolAdapter.InvalidParams
             ("Invalid parameters: "
                ++ ZodError_message
                     [ToolAdapter.mkZodIssue "object" "undefined" [] "Required"]))
    /\ validationIssues "list_datasets" (Some []) = None.
Proof.
  intros ZodError_message client name Hin. split; [|reflexivity].
  unfold outcome. rewrite handler_of_dispatch.
  rewrite (dispatch_invalid client name None
             (issues := [ToolAdapter.mkZodIssue "object" "undefined" [] "Required"]) []).
  - reflexivity.
  - cbn in Hin. destruct Hin as [<-|[<-|[<-|[<-|[<-|[]]]]]]; reflexivity.
Qed.

(** X16, witness: [list_datasets] without arguments. *)
Lemma handler_requires_arguments_object_witness :
  outcome (ToolAdapter.handler sampleZodMessage sampleClient "list_datasets" None)
  = inl (ToolAdapter.McpError ToolAdapter.InvalidParams "Invalid parameters: : Required").
Proof.
  apply (@handler_requires_arguments_object basicLatin sampleZodMessage sampleClient "list_datasets").
  cbn. tauto.
Defined.

Lemma dispatch_ignores_unknown_key {host : Js.Host} (client : Axios.Instance) (name : string)
    (o : Js.Record Js.Json) (k : string) (v : Js.Json) (log : list Axios.Request) :
  ~ In k (schemaKeys name) ->
  ToolAdapter.dispatch client name (Some (Js.set o k v)) log
  = ToolAdapter.dispatch client name (Some o) log.
Proof.
  intros H. unfold ToolAdapter.dispatch. unfold schemaKeys in H.
  repeat match goal with
         | |- context [String.eqb name ?s] => destruct (String.eqb name s)
         end;
    try reflexivity;
    unfold ToolAdapter.ListDatasetsArgsSchema, ToolAdapter.GetDatasetArgsSchema,
      ToolAdapter.SearchDatasetsArgsSchema, ToolAdapter.GetObservationArgsSchema,
      ToolAdapter.GetLatestDataArgsSchema, ToolAdapter.z_object;
    rewrite !(get_set_other o) by (intros ->; apply H; cbn; tauto);
    reflexivity.
Qed.

(** X17: properties that a tool's schema does not name are ignored: adding
    or overwriting such a property in the arguments object changes neither
    the handler's result nor the requests it issues. *)
Theorem handler_ignores_unknown_properties {host : Js.Host} :
  forall (ZodError_message : list ToolAdapter.ZodIssue -> string)
         (client : Axios.Instance) (name : string) (o : Js.Record Js.Json)
         (k : string) (v : Js.Json),
    ~ In k (schemaKeys name) ->
    outcome (ToolAdapter.handler ZodError_message client name (Some (Js.set o k v)))
    = outcome (ToolAdapter.handler ZodError_message client name (Some o))
    /\ requests (ToolAdapter.handler ZodError_message client name (Some (Js.set o k v)))
       = requests (ToolAdapter.handler ZodError_message client name (Some o)).
Proof.
  intros ZodError_message client name o k v H.
  unfold outcome, requests. rewrite !handler_of_dispatch.
  now rewrite (@dispatch_ignores_unknown_key host client name o k v [] H).
Qed.

(** X17, witness: an extra [format] property on a [get_dataset] call. *)
Lemma handler_ignores_unknown_properties_witness :
  outcome (ToolAdapter.handler sampleZodMessage sampleClient "get_dataset"
             (Some [("dataset_id", Js.JStr "cpih01"); ("format", Js.JStr "csv")]))
  = outcome (ToolAdapter.handler sampleZodMessage sampleClient "get_dataset"
               (Some [("dataset_id", Js.JStr "cpih01")])).
Proof.
  apply (@handler_ignores_unknown_properties basicLatin sampleZodMessage sampleClient "get_dataset"
           [("dataset_id", Js.JStr "cpih01")] "format" (Js.JStr "csv")).
  cbn. intros [H|[]]. discriminate H.
Defined.

(** X18: [list_datasets] passes [limit] and [offset] to the upstream as they
    are, with no bound on either, 20 and 0 standing for an absent one; it
    issues that one listing request, echoes the two values beside the
    upstream's items and total, and lets a failure of the request through as
    the client raised it. *)
Theorem list_datasets_passes_pagination {host : Js.Host} :
  forall (ZodError_message : list ToolAdapter.ZodIssue -> string)
         (client : Axios.Instance) (o : Js.Record Js.Json) (limit offset : option Z),
    Js.get o "limit" = option_map Js.JNum limit ->
    Js.get o "offset" = option_map Js.JNum offset ->
    let l := match limit with Some n => n | None => 20 end in
    let f := match offset with Some n => n | None => 0 end in
    let call := ToolAdapter.handler ZodError_message client "list_datasets" (Some o) in
    requests call = [listRequest l f]
    /\ (forall listing,
          client Axios.SDatasetList (listRequest l f) = Axios.Resolved listing ->
          outcome call
          = inr (ToolAdapter.ListDatasetsOutput (ONSDatasetList.items listing)
                   (ONSDatasetList.total_count listing) l f))
    /\ (forall error,
          client Axios.SDatasetList (listRequest l f) = Axios.Rejected error ->
          outcome call = inl (ToolAdapter.ThrownError (ONSApiClient.onRejected error))).
Proof.
  intros ZodError_message client o limit offset Hl Hf l f call. subst call.
  unfold requests, outcome.
  rewrite (@handler_run host ZodError_message client "list_datasets" (Some o) _
             (inr (l, f))
             (fun r => datasets <- ONSDatasetService.listDatasets client
                                     (ONSDatasetService.mkDatasetListOptions (fst r) (snd r)) ;;
                       resolve (ToolAdapter.ListDatasetsOutput
                                  (ONSDatasetList.items datasets)
                                  (ONSDatasetList.total_count datasets) (fst r) (snd r)))).
  - cbn [fst snd]. unfold await, ONSDatasetService.listDatasets, ONSApiClient.listDatasets.
    cbn [ONSDatasetService.limit ONSDatasetService.offset ONSApiClient.default].
    rewrite client_get_run. fold (listRequest l f).
    split; [|split].
    + now destruct (client Axios.SDatasetList (listRequest l f)).
    + intros listing H. now rewrite H.
    + intros error H. now rewrite H.
  - intros log'. unfold ToolAdapter.dispatch. cbn [String.eqb Ascii.eqb Bool.eqb].
    rewrite parse_await.
    assert (Hparse : ToolAdapter.ListDatasetsArgsSchema (Some o) = inr (l, f)).
    { unfold ToolAdapter.ListDatasetsArgsSchema, ToolAdapter.z_object.
      rewrite Hl, Hf. subst l f. now destruct limit, offset. }
    rewrite Hparse, service_await. cbn [fst snd]. unfold await.
    destruct (ONSDatasetService.listDatasets client _ log') as [[e|a] log'']; reflexivity.
Qed.

(** X18, witness: the empty object asks for 20 datasets from offset 0. *)
Lemma list_datasets_passes_pagination_witness :
  requests (ToolAdapter.handler sampleZodMessage sampleClient "list_datasets" (Some []))
  = [listRequest 20 0].
Proof.
  apply (@list_datasets_passes_pagination basicLatin sampleZodMessage sampleClient [] None None).
  - reflexivity.
  - reflexivity.
Defined.

(** X19: [get_dataset] issues the one dataset request and returns the
    upstream's dataset as it is; for an identifier the upstream answers with
    status 404 and a message, the call fails with the resource-not-found
    error carrying that message. *)
Theorem get_dataset_not_found {host : Js.Host} :
  forall (ZodError_message : list ToolAdapter.ZodIssue -> string)
         (client : Axios.Instance) (o : Js.Record Js.Json) (dataset_id : string),
    Js.get o "dataset_id" = Some (Js.JStr dataset_id) ->
    let call := ToolAdapter.handler ZodError_message client "get_dataset" (Some o) in
    requests call = [datasetRequest dataset_id]
    /\ (forall dataset,
          client Axios.SDataset (datasetRequest dataset_id) = Axios.Resolved dataset ->
          outcome call = inr (ToolAdapter.GetDatasetOutput dataset))
    /\ (forall upstream transport,
          upstream <> EmptyString ->
          client Axios.SDataset (datasetRequest dataset_id)
          = Axios.Rejected
              (Axios.mkAxiosError (Some (Axios.mkErrorResponse 404 (Some upstream)))
                 transport) ->
          outcome call
          = inl (ToolAdapter.ThrownError
                   (Js.mkError ("ONS API: Resource not found - " ++ upstream)))).
Proof.
  intros ZodError_message client o dataset_id Hid call. subst call.
  unfold requests, outcome.
  rewrite (@handler_run host ZodError_message client "get_dataset" (Some o) _
             (inr dataset_id)
             (fun id => dataset <- ONSDatasetService.getDataset client id ;;
                        resolve (ToolAdapter.GetDatasetOutput dataset))).
  - unfold await, ONSDatasetService.getDataset, ONSApiClient.getDataset.
    rewrite client_get_run. fold (datasetRequest dataset_id).
    split; [|split].
    + now destruct (client Axios.SDataset (datasetRequest dataset_id)).
    + intros dataset H. now rewrite H.
    + intros upstream transport Hne H. rewrite H. cbn [fst].
      unfold ONSApiClient.onRejected. cbn.
      apply truthy_iff in Hne. unfold Js.or_else. now rewrite Hne.
  - intros log'. unfold ToolAdapter.dispatch. cbn [String.eqb Ascii.eqb Bool.eqb].
    rewrite parse_await.
    assert (Hparse : ToolAdapter.GetDatasetArgsSchema (Some o) = inr dataset_id).
    { unfold ToolAdapter.GetDatasetArgsSchema, ToolAdapter.z_object. now rewrite Hid. }
    rewrite Hparse, service_await. unfold await.
    destruct (ONSDatasetService.getDataset client _ log') as [[e|a] log'']; reflexivity.
Qed.

(** X19, witness: a dataset the two-dataset upstream does not know. *)
Lemma get_dataset_not_found_witness :
  outcome (ToolAdapter.handler sampleZodMessage twoDatasetClient "get_dataset"
             (Some [("dataset_id", Js.JStr "no-such-dataset")]))
  = inl (ToolAdapter.ThrownError
           (Js.mkError "ONS API: Resource not found - dimension not found")).
Proof.
  destruct (@get_dataset_not_found basicLatin sampleZodMessage twoDatasetClient
              [("dataset_id", Js.JStr "no-such-dataset")] "no-such-dataset" eq_refl)
    as [_ [_ Hnf]].
  apply (Hnf "dimension not found" "Request failed with status code 404").
  - discriminate.
  - reflexivity.
Defined.

(** X20: [search_datasets] echoes the query and reports as [total] the number
    of results it returns, never the size of the catalogue; an absent limit
    stands for 10, and for a non-negative limit there are at most that many
    results. *)
Theorem search_datasets_total_is_result_count {host : Js.Host} :
  forall (ZodError_message : list ToolAdapter.ZodIssue -> string)
         (client : Axios.Instance) (o : Js.Record Js.Json) (query : string)
         (limit : option Z) (listing : ONSDatasetList.t),
    Js.get o "query" = Some (Js.JStr query) ->
    Js.get o "limit" = option_map Js.JNum limit ->
    client Axios.SDatasetList searchListingRequest = Axios.Resolved listing ->
    let l := match limit with Some n => n | None => 10 end in
    exists results,
      outcome (ToolAdapter.handler ZodError_message client "search_datasets" (Some o))
      = inr (ToolAdapter.SearchDatasetsOutput query results
               (Z.of_nat (List.length results)))
      /\ (0 <= l -> Z.of_nat (List.length results) <= l)
      /\ (forall d, In d results -> In d (ONSDatasetList.items listing)).
Proof.
  intros ZodError_message client o query limit listing Hq Hl Hlisting l.
  unfold outcome.
  rewrite (@handler_run host ZodError_message client "search_datasets" (Some o) _
             (inr (query, l))
             (fun r => results <- ONSDatasetService.searchDatasets client (fst r)
                                    (Some (snd r)) ;;
                       resolve (ToolAdapter.SearchDatasetsOutput (fst r)
                                  (ONSDatasetList.items results)
                                  (ONSDatasetList.total_count results)))).
  - cbn [fst snd]. unfold await, ONSDatasetService.searchDatasets.
    cbn [ONSApiClient.default].
    rewrite (searchDatasets_run client query (Some l) [] Hlisting).
    cbn [fst resolve ONSDatasetList.items ONSDatasetList.total_count ONSApiClient.default].
    eexists. split; [reflexivity|]. split.
    + intros H. now apply slice0_length.
    + intros d Hd. apply slice0_In, filter_In in Hd. tauto.
  - intros log'. unfold ToolAdapter.dispatch. cbn [String.eqb Ascii.eqb Bool.eqb].
    rewrite parse_await.
    assert (Hparse : ToolAdapter.SearchDatasetsArgsSchema (Some o) = inr (query, l)).
    { unfold ToolAdapter.SearchDatasetsArgsSchema, ToolAdapter.z_object.
      rewrite Hq, Hl. subst l. now destruct limit. }
    rewrite Hparse, service_await. cbn [fst snd]. unfold await.
    destruct (ONSDatasetService.searchDatasets client _ _ log') as [[e|a] log''];
      reflexivity.
Qed.

(** X20, witness: the sample upstream reports 337 datasets; the search for
    ["cpi"] reports the two it found. *)
Lemma search_datasets_total_is_result_count_witness :
  exists results,
    outcome (ToolAdapter.handler sampleZodMessage sampleClient "search_datasets"
               (Some [("query", Js.JStr "cpi")]))
    = inr (ToolAdapter.SearchDatasetsOutput "cpi" results
             (Z.of_nat (List.length results)))
    /\ (0 <= 10 -> Z.of_nat (List.length results) <= 10)
    /\ (forall d, In d results -> In d (ONSDatasetList.items sampleListing)).
Proof.
  apply (@search_datasets_total_is_result_count basicLatin sampleZodMessage sampleClient
           [("query", Js.JStr "cpi")] "cpi" None sampleListing).
  - reflexivity.
  - reflexivity.
  - reflexivity.
Defined.

(** X21: [get_observation] hands the validated arguments to the request
    builder unchanged: with the dimensions given as an object of strings it
    issues the one observations request for the dataset, the edition and the
    version given ([time-series] and [latest] when absent) and those
    dimensions in the order given, and returns the upstream's payload as it
    is. *)
Theorem get_observation_request {host : Js.Host} :
  forall (ZodError_message : list ToolAdapter.ZodIssue -> string)
         (client : Axios.Instance) (o : Js.Record Js.Json) (dataset_id : string)
         (edition version : option string) (dimensions : Js.Record string),
    Js.get o "dataset_id" = Some (Js.JStr dataset_id) ->
    Js.get o "edition" = option_map Js.JStr edition ->
    Js.get o "version" = option_map Js.JStr version ->
    Js.get o "dimensions" = Some (Js.JObj (jsonOfRecord dimensions)) ->
    let e := match edition with Some s => s | None => "time-series" end in
    let v := match version with Some s => s | None => "latest" end in
    let call := ToolAdapter.handler ZodError_message client "get_observation" (Some o) in
    requests call = [observationsRequest dataset_id e v dimensions]
    /\ (forall observations,
          client Axios.SObservations (observationsRequest dataset_id e v dimensions)
          = Axios.Resolved observations ->
          outcome call = inr (ToolAdapter.GetObservationOutput observations)).
Proof.
  intros ZodError_message client o dataset_id edition version dimensions
    Hid He Hv Hd e v call.
  subst call. unfold requests, outcome.
  rewrite (@handler_run host ZodError_message client "get_observation" (Some o) _
             (inr (dataset_id, (e, (v, dimensions))))
             (fun r => observations <-
                         ONSDatasetService.getObservations client (fst r)
                           (Some (fst (snd r))) (Some (fst (snd (snd r))))
                           (snd (snd (snd r))) ;;
                       resolve (ToolAdapter.GetObservationOutput observations))).
  - cbn [fst snd]. unfold await. rewrite getObservations_run. split.
    + now destruct (client Axios.SObservations _).
    + intros observations H. now rewrite H.
  - intros log'. unfold ToolAdapter.dispatch. cbn [String.eqb Ascii.eqb Bool.eqb].
    rewrite parse_await.
    assert (Hparse : ToolAdapter.GetObservationArgsSchema (Some o)
                     = inr (dataset_id, (e, (v, dimensions)))).
    { unfold ToolAdapter.GetObservationArgsSchema, ToolAdapter.z_object.
      rewrite Hid, He, Hv, Hd. cbn [ToolAdapter.z_record_string ToolAdapter.z_string].
      rewrite z_record_fields_round_trip. subst e v.
      now destruct edition, version. }
    rewrite Hparse, service_await. cbn [fst snd]. unfold await.
    destruct (ONSDatasetService.getObservations client _ _ _ _ log') as [[err|a] log''];
      reflexivity.
Qed.

(** X21, witness: no edition, no version and an empty filter: the request
    path ends with the bare [?]. *)
Lemma get_observation_request_witness :
  requests (ToolAdapter.handler sampleZodMessage sampleClient "get_observation"
              (Some [("dataset_id", Js.JStr "cpih01"); ("dimensions", Js.JObj [])]))
  = [Axios.mkRequest
       "/datasets/cpih01/editions/time-series/versions/latest/observations?" []].
Proof.
  apply (@get_observation_request basicLatin sampleZodMessage sampleClient
           [("dataset_id", Js.JStr "cpih01"); ("dimensions", Js.JObj [])]
           "cpih01" None None []).
  - reflexivity.
  - reflexivity.
  - reflexivity.
  - reflexivity.
Defined.

Lemma both_issues_l {A B : Type} (ra : ToolAdapter.ParseResult A)
    (rb : ToolAdapter.ParseResult B) :
  (exists issues, ra = inl issues) -> exists issues, ToolAdapter.both ra rb = inl issues.
Proof.
  intros [issues ->]. destruct rb; eexists; reflexivity.
Qed.

Lemma both_issues_r {A B : Type} (ra : ToolAdapter.ParseResult A)
    (rb : ToolAdapter.ParseResult B) :
  (exists issues, rb = inl issues) -> exists issues, ToolAdapter.both ra rb = inl issues.
Proof.
  intros [issues ->]. destruct ra; eexists; reflexivity.
Qed.

Lemma dispatch_known_not_mcp {host : Js.Host} (client : Axios.Instance) (name : string)
    (args : option (Js.Record Js.Json)) (log : list Axios.Request)
    (code : ToolAdapter.ErrorCode) (m : string) :
  In name knownTools ->
  fst (ToolAdapter.dispatch client name args log) <> inl (ToolAdapter.McpError code m).
Proof.
  intros Hin. cbn in Hin.
  destruct Hin as [<-|[<-|[<-|[<-|[<-|[]]]]]];
    unfold ToolAdapter.dispatch; cbn [String.eqb Ascii.eqb Bool.eqb];
    rewrite parse_await;
    match goal with
    | |- context [match ?r with inl _ => _ | inr _ => _ end] => destruct r as [issues|a]
    end;
    try discriminate;
    repeat match goal with
           | |- context [let '(_, _) := ?p in _] => destruct p
           end;
    rewrite service_await;
    match goal with
    | |- context [match ?c with (_, _) => _ end] => destruct c as [[e|x] log']
    end;
    cbn; discriminate.
Qed.

(** X22: the tools the server advertises are the tools the handler knows: a
    call fails with the unknown-tool error exactly when its name is not in
    the advertised list; and every property an advertised tool marks as
    required is required by the handler: an arguments object without it
    fails validation. *)
Theorem advertised_tools_match_handler {host : Js.Host} :
  (forall (ZodError_message : list ToolAdapter.ZodIssue -> string)
          (client : Axios.Instance) (name : string)
          (args : option (Js.Record Js.Json)),
      In name (map ToolAdapter.tool_name advertisedTools) <->
      outcome (ToolAdapter.handler ZodError_message client name args)
      <> inl (ToolAdapter.McpError ToolAdapter.MethodNotFound ("Unknown tool: " ++ name)))
  /\ (forall (tool : ToolAdapter.Tool) (p : string) (o : Js.Record Js.Json),
        In tool advertisedTools ->
        In p (match ToolAdapter.inputSchema_required tool with
              | Some required => required
              | None => []
              end) ->
        Js.get o p = None ->
        exists issues,
          validationIssues (ToolAdapter.tool_name tool) (Some o) = Some issues).
Proof.
  split.
  - intros ZodError_message client name args.
    change (map ToolAdapter.tool_name advertisedTools) with knownTools.
    unfold outcome. rewrite handler_of_dispatch. split.
    + intros Hin.
      pose proof (fun code m => @dispatch_known_not_mcp host client name args [] code m Hin)
        as Hnot.
      destruct (ToolAdapter.dispatch client name args [])
        as [[[e|issues|code m]|out] log']; cbn [fst] in *; try discriminate.
      exfalso. now apply (Hnot code m).
    + intros Hne. destruct (in_dec string_dec name knownTools) as [Hin|Hout];
        [exact Hin|].
      exfalso. apply Hne. now rewrite (dispatch_unknown client args [] Hout).
  - intros tool p o Htool Hp Hget.
    assert (Hissues : forall A (r : ToolAdapter.ParseResult A),
               (exists issues, r = inl issues) ->
               exists issues, issuesOf r = Some issues).
    { intros A r [issues ->]. now exists issues. }
    cbn in Htool.
    destruct Htool as [<-|[<-|[<-|[<-|[<-|[]]]]]]; cbn in Hp;
      repeat match type of Hp with
             | _ \/ _ => destruct Hp as [<-|Hp]
             | False => destruct Hp
             end;
      unfold validationIssues; cbn [ToolAdapter.tool_name String.eqb Ascii.eqb Bool.eqb];
      apply Hissues;
      unfold ToolAdapter.GetDatasetArgsSchema, ToolAdapter.SearchDatasetsArgsSchema,
        ToolAdapter.GetObservationArgsSchema, ToolAdapter.GetLatestDataArgsSchema,
        ToolAdapter.z_object;
      rewrite Hget;
      repeat first
        [ solve [eexists; reflexivity]
        | apply both_issues_l; solve [eexists; reflexivity]
        | apply both_issues_r ].
Qed.

(** X22, witness: [search_datasets] is advertised with [query] required. *)
Lemma advertised_tools_match_handler_witness :
  exists issues,
    validationIssues "search_datasets" (Some [("limit", Js.JNum 5)]) = Some issues.
Proof.
  destruct advertised_tools_match_handler as [_ Hrequired].
  apply (Hrequired
           (ToolAdapter.mkTool "search_datasets"
              "Search for datasets by name or description" "object"
              [ToolAdapter.mkToolProperty "query" "string" "Search query for datasets" None;
               ToolAdapter.mkToolProperty "limit" "number" "Maximum number of results"
                 (Some (Js.JNum 10))]
              (Some ["query"]))
           "query" [("limit", Js.JNum 5)]).
  - cbn. tauto.
  - cbn. tauto.
  - reflexivity.
Defined.

(** X23: the resources the server advertises are the resources it serves:
    reading an advertised URI returns one content item with that URI and the
    advertised MIME type; reading any other URI fails with the
    invalid-request error naming it; and no read issues an HTTP request. *)
Theorem advertised_resources_match_reader :
  forall uri : string,
    requests (ToolAdapter.readResource uri) = []
    /\ (forall resource,
          In resource advertisedResources ->
          ToolAdapter.resource_uri resource = uri ->
          exists text,
            outcome (ToolAdapter.readResource uri)
            = inr [ToolAdapter.mkResourceContent uri
                     (ToolAdapter.resource_mimeType resource) text])
    /\ (~ In uri (map ToolAdapter.resource_uri advertisedResources) ->
        outcome (ToolAdapter.readResource uri)
        = inl (ToolAdapter.McpError ToolAdapter.InvalidRequest
                 ("Unknown resource: " ++ uri))).
Proof.
  intros uri. unfold requests, outcome, ToolAdapter.readResource. split; [|split].
  - destruct (String.eqb uri "ons://popular_datasets"); [reflexivity|].
    destruct (String.eqb uri "ons://api_info"); reflexivity.
  - intros resource Hin Huri. cbn in Hin.
    destruct Hin as [<-|[<-|[]]]; cbn in Huri; subst uri; eexists; reflexivity.
  - intros Hnot.
    destruct (String.eqb_spec uri "ons://popular_datasets") as [->|_];
      [exfalso; apply Hnot; cbn; tauto|].
    destruct (String.eqb_spec uri "ons://api_info") as [->|_];
      [exfalso; apply Hnot; cbn; tauto|].
    reflexivity.
Qed.

(** X23, witness: a URI that is not advertised. *)
Lemma advertised_resources_match_reader_witness :
  outcome (ToolAdapter.readResource "ons://datasets")
  = inl (ToolAdapter.McpError ToolAdapter.InvalidRequest
           "Unknown resource: ons://datasets").
Proof.
  destruct (advertised_resources_match_reader "ons://datasets") as [_ [_ Hunknown]].
  apply Hunknown. cbn. intros [H|[H|[]]]; discriminate H.
Defined.
